(** * Parallel coordinates: a model of [yellowbrick/features/pcoords.py]

    The module defines one class, [ParallelCoordinates], with a constructor,
    [fit] (the drawing method) and [poof].  The development below embeds the
    constructor and [fit]:

    - the visualizer object is a record that [fit] reads and mutates; it is
      threaded through a small state-and-exception monad, and it keeps the
      mutations made before an exception is raised, as the Python object does;
    - the drawing surface [self.ax] is matplotlib's; every method the code
      calls on it is recorded as an event, in call order, and the events
      issued before an exception are kept;
    - Python exceptions are values of [exc]; the code has no [raise] and no
      [try], so every exception is one of the interpreter's own. *)

From stdpp Require Import gmap strings list fin_maps pretty.

(** ** Python values *)

(** A raw label of the target vector: an integer or a string. *)
Inductive label :=
| LInt (k : Z)
| LStr (s : string).

#[global] Instance label_eq_dec : EqDecision label.
Proof. solve_decision. Defined.

(** [str(label)]: the decimal numeral of an integer, a string unchanged. *)
Definition str (l : label) : string :=
  match l with
  | LInt k => pretty k
  | LStr s => s
  end.

(** Values of the keyword dictionary passed to [axvline]. *)
Inductive pyval :=
| VInt (n : Z)
| VStr (s : string).

(** The exceptions the interpreter can raise in [fit]. *)
Inductive exc :=
| TypeError
| IndexError
| KeyError (key : string).

(** Identity of an axes object. *)
Definition axes := nat.

(** [l[i]] on a Python list: a negative index counts from the end, an index
    outside [-len(l), len(l)) raises [IndexError]. *)
Definition list_getitem {A} (l : list A) (i : Z) : exc + A :=
  let j := if decide (i < 0)%Z then (i + Z.of_nat (length l))%Z else i in
  if decide (0 ≤ j)%Z then
    match l !! Z.to_nat j with
    | Some a => inr a
    | None => inl IndexError
    end
  else inl IndexError.

(** [d[k]] on a dictionary with string keys. *)
Definition dict_getitem {V} (d : gmap string V) (k : string) : exc + V :=
  match d !! k with
  | Some v => inr v
  | None => inl (KeyError k)
  end.

(** [dict(pairs)]: the pairs are inserted from left to right, so that a later
    pair overrides an earlier one with the same key. *)
Definition py_dict {V} (pairs : list (string * V)) : gmap string V :=
  foldl (λ d kv, <[kv.1 := kv.2]> d) ∅ pairs.

(** [enumerate(l)]. *)
Definition enumerate {A} (l : list A) : list (nat * A) :=
  zip (seq 0 (length l)) l.

(** Truth value of an optional dictionary: [None] and [{}] are false. *)
Definition dict_truthy {V} (d : option (gmap string V)) : bool :=
  match d with
  | None => false
  | Some m => negb (bool_decide (m = ∅))
  end.

(** [a or b] where [a] is an optional dictionary. *)
Definition dict_or {V} (a : option (gmap string V)) (b : gmap string V)
  : gmap string V :=
  match a with
  | Some m => if dict_truthy a then m else b
  | None => b
  end.

Declare Scope pc_scope.
Delimit Scope pc_scope with pc.

Section Pcoords.

(** The type of the items that iterating [X] yields (a row of numbers for a
    two-dimensional array, a column label for a frame) and the type of
    colour values are left open: [fit] only passes them on. *)
Context {value colour : Type}.

(** The order in which iterating [set(y)] yields the distinct elements of
    [y].  Python leaves it to the hash table. *)
Variable set_iter : list label → list label.

(** [yellowbrick.color_utils.resolve_colors(num_colors, colormap, color)],
    imported by the module. *)
Variable resolve_colors :
  nat → option string → option (list colour) → list colour.

(** What [set_iter] may be: a duplicate-free enumeration of the elements. *)
Definition set_iter_spec : Prop :=
  ∀ ys, NoDup (set_iter ys) ∧ ∀ l, l ∈ set_iter ys ↔ l ∈ ys.

(** The contract of [resolve_colors]: as many colours as asked for. *)
Definition resolve_colors_contract : Prop :=
  ∀ n cm c, length (resolve_colors n cm c) = n.

(** ** Data *)

(** The argument [X] of [fit], as far as [fit] looks at it: [X.shape], the
    sequence that iterating [X] yields (the loop calls each item [row]: the
    rows of a two-dimensional array, but the column labels of a frame), and
    [X.columns] when the attribute exists. *)
Record Matrix := {
  shape : nat * nat;
  rows : list value;
  columns : option (list string)
}.

(** The calls [fit] makes on [self.ax], and its one [print]. *)
Inductive event :=
| Print (colors : gmap string colour)
| Plot (x : list nat) (row : value) (c : colour) (lbl : string)
| Axvline (pos : nat) (kwds : gmap string pyval)
| SetXticks (x : list nat)
| SetXticklabels (names : list string)
| SetXlim (lo hi : nat).

(** The attributes of a [ParallelCoordinates] object. *)
Record ParallelCoordinates := {
  ax : option axes;
  features_ : option (list string);
  classes_ : option (list string);
  color : option (list colour);
  colormap : option string;
  show_vlines : bool;
  vlines_kwds : gmap string pyval
}.

Definition set_ax (a : axes) (s : ParallelCoordinates) :=
  {| ax := Some a; features_ := features_ s; classes_ := classes_ s;
     color := color s; colormap := colormap s;
     show_vlines := show_vlines s; vlines_kwds := vlines_kwds s |}.

Definition set_features_ (f : list string) (s : ParallelCoordinates) :=
  {| ax := ax s; features_ := Some f; classes_ := classes_ s;
     color := color s; colormap := colormap s;
     show_vlines := show_vlines s; vlines_kwds := vlines_kwds s |}.

Definition set_classes_ (c : list string) (s : ParallelCoordinates) :=
  {| ax := ax s; features_ := features_ s; classes_ := Some c;
     color := color s; colormap := colormap s;
     show_vlines := show_vlines s; vlines_kwds := vlines_kwds s |}.

(** ** The constructor *)

(** The keyword arguments of [__init__]. *)
Record init_args := {
  arg_ax : option axes;
  arg_features : option (list string);
  arg_classes : option (list string);
  arg_color : option (list colour);
  arg_colormap : option string;
  arg_vlines : bool;
  arg_vlines_kwds : option (gmap string pyval)
}.

(** The defaults of the signature. *)
Definition default_args : init_args :=
  {| arg_ax := None; arg_features := None; arg_classes := None;
     arg_color := None; arg_colormap := None;
     arg_vlines := true; arg_vlines_kwds := None |}.

(** The literal [{'linewidth': 1, 'color': 'black'}]. *)
Definition default_vlines_kwds : gmap string pyval :=
  py_dict [("linewidth"%string, VInt 1); ("color"%string, VStr "black")].

Definition init (a : init_args) : ParallelCoordinates :=
  {| ax := arg_ax a;
     features_ := arg_features a;
     classes_ := arg_classes a;
     color := arg_color a;
     colormap := arg_colormap a;
     show_vlines := arg_vlines a;
     vlines_kwds := dict_or (arg_vlines_kwds a) default_vlines_kwds |}.

(** ** The monad of [fit]: visualizer state, exceptions, recorded calls *)

Definition M (A : Type) : Type :=
  ParallelCoordinates → (exc + A) * ParallelCoordinates * list event.

Definition ret {A} (a : A) : M A := λ s, (inr a, s, []).

Definition bind {A B} (m : M A) (k : A → M B) : M B := λ s,
  match m s with
  | (inr a, s1, t1) =>
      match k a s1 with
      | (r, s2, t2) => (r, s2, t1 ++ t2)
      end
  | (inl e, s1, t1) => (inl e, s1, t1)
  end.

Definition lift {A} (r : exc + A) : M A := λ s, (r, s, []).
Definition raise {A} (e : exc) : M A := lift (inl e).
Definition gets {A} (f : ParallelCoordinates → A) : M A := λ s, (inr (f s), s, []).
Definition modify (f : ParallelCoordinates → ParallelCoordinates) : M unit :=
  λ s, (inr tt, f s, []).
Definition emit (e : event) : M unit := λ s, (inr tt, s, [e]).

Notation "x <- m ;; k" := (bind m (λ x, k))
  (at level 100, m at next level, right associativity) : pc_scope.
Notation "m ;; k" := (bind m (λ _, k))
  (at level 100, right associativity) : pc_scope.
Local Open Scope pc_scope.

(** A [for] loop over a list. *)
Fixpoint for_ {A} (l : list A) (body : A → M unit) : M unit :=
  match l with
  | [] => ret tt
  | a :: l' => body a ;; for_ l' body
  end.

(** Reading an attribute that holds a list, where [None] is a type error
    for the operation applied to it. *)
Definition the_list {A} (o : option (list A)) : M (list A) :=
  match o with
  | Some l => ret l
  | None => raise TypeError
  end.

(** ** [fit] *)

(** [set(y)], iterated: [None] is not iterable. *)
Definition iter_set (y : option (list label)) : M (list label) :=
  match y with
  | Some ys => ret (set_iter ys)
  | None => raise TypeError
  end.

(** [y[idx]]. *)
Definition y_getitem (y : option (list label)) (idx : nat) : M label :=
  ys <- the_list y ;;
  lift (list_getitem ys (Z.of_nat idx)).

(** [self.classes_[label]]: the index must be an integer. *)
Definition classes_getitem (lbl : label) : M string :=
  cls <- gets classes_ ;;
  cls <- the_list cls ;;
  match lbl with
  | LInt k => lift (list_getitem cls k)
  | LStr _ => raise TypeError
  end.

(** The body of the loop over the instances. *)
Definition plot_instance (x : list nat) (colors : gmap string colour)
    (y : option (list label)) (it : nat * value) : M unit :=
  let '(idx, row) := it in
  lbl <- y_getitem y idx ;;
  lbl <- classes_getitem lbl ;;
  c <- lift (dict_getitem colors lbl) ;;
  emit (Plot x row c lbl).

Definition fit (gca : axes) (X : Matrix) (y : option (list label)) : M unit :=
  let '(nrows, ncols) := shape X in
  cls <- gets classes_ ;;
  (if cls is None then
     ls <- iter_set y ;;
     modify (set_classes_ (str <$> ls))
   else ret tt) ;;
  fs <- gets features_ ;;
  (if fs is None then
     match columns X with
     | Some cols => modify (set_features_ cols)
     | None => modify (set_features_ (pretty <$> seq 0 ncols))
     end
   else ret tt) ;;
  let x := seq 0 ncols in
  a <- gets ax ;;
  (if a is None then modify (set_ax gca) else ret tt) ;;
  cls <- gets classes_ ;;
  cls <- the_list cls ;;
  cm <- gets colormap ;;
  co <- gets color ;;
  let color_values := resolve_colors (length cls) cm co in
  let colors := py_dict (zip cls color_values) in
  emit (Print colors) ;;
  for_ (enumerate (rows X)) (plot_instance x colors y) ;;
  sv <- gets show_vlines ;;
  (if sv then
     for_ x (λ idx, kw <- gets vlines_kwds ;; emit (Axvline idx kw))
   else ret tt) ;;
  emit (SetXticks x) ;;
  fs <- gets features_ ;;
  fs <- the_list fs ;;
  emit (SetXticklabels fs) ;;
  lo <- lift (list_getitem x 0) ;;
  hi <- lift (list_getitem x (-1)) ;;
  emit (SetXlim lo hi).

(** ** The run of [fit] in closed form

    The definitions below describe each stage of [fit] as a pure function;
    [fit_unfold] proves that [fit] computes exactly this. *)

(** The class list after lines 106-108, when they do not raise. *)
Definition class_list (y : option (list label)) (s : ParallelCoordinates)
  : option (list string) :=
  match classes_ s with
  | Some c => Some c
  | None => (λ ys, str <$> set_iter ys) <$> y
  end.

(** The feature list after lines 111-121. *)
Definition feature_list (X : Matrix) (s : ParallelCoordinates) : list string :=
  match features_ s with
  | Some f => f
  | None =>
      match columns X with
      | Some cols => cols
      | None => pretty <$> seq 0 (shape X).2
      end
  end.

(** The visualizer after the three resolution steps (classes, features,
    axes). *)
Definition resolved (gca : axes) (X : Matrix) (cls : list string)
    (s : ParallelCoordinates) : ParallelCoordinates :=
  {| ax := Some (default gca (ax s));
     features_ := Some (feature_list X s);
     classes_ := Some cls;
     color := color s; colormap := colormap s;
     show_vlines := show_vlines s; vlines_kwds := vlines_kwds s |}.

(** The colour sequence and the colour mapping of lines 131-134. *)
Definition color_values (cls : list string) (s : ParallelCoordinates)
  : list colour :=
  resolve_colors (length cls) (colormap s) (color s).

Definition color_map (cls : list string) (s : ParallelCoordinates)
  : gmap string colour :=
  py_dict (zip cls (color_values cls s)).

(** One iteration of the loop over the instances: the call it makes, or the
    exception it raises. *)
Definition instance_event (x : list nat) (cls : list string)
    (colors : gmap string colour) (y : option (list label))
    (it : nat * value) : exc + event :=
  match y with
  | None => inl TypeError
  | Some ys =>
      match list_getitem ys (Z.of_nat it.1) with
      | inl e => inl e
      | inr (LStr _) => inl TypeError
      | inr (LInt k) =>
          match list_getitem cls k with
          | inl e => inl e
          | inr name =>
              match dict_getitem colors name with
              | inl e => inl e
              | inr c => inr (Plot x it.2 c name)
              end
          end
      end
  end.

(** A loop whose iterations each make one call or raise: the calls made, and
    the exception that stopped it, if any. *)
Fixpoint collect {A} (f : A → exc + event) (l : list A)
  : option exc * list event :=
  match l with
  | [] => (None, [])
  | a :: l' =>
      match f a with
      | inl e => (Some e, [])
      | inr ev => let '(r, t) := collect f l' in (r, ev :: t)
      end
  end.

(** The guide lines of lines 146-148. *)
Definition guide_events (x : list nat) (s : ParallelCoordinates) : list event :=
  if show_vlines s then (λ idx, Axvline idx (vlines_kwds s)) <$> x else [].

(** The whole run: result, final visualizer, recorded calls. *)
Definition fit_closed (gca : axes) (X : Matrix) (y : option (list label))
    (s : ParallelCoordinates)
  : (exc + unit) * ParallelCoordinates * list event :=
  match class_list y s with
  | None => (inl TypeError, s, [])
  | Some cls =>
      let s1 := resolved gca X cls s in
      let x := seq 0 (shape X).2 in
      let colors := color_map cls s in
      match collect (instance_event x cls colors y) (enumerate (rows X)) with
      | (Some e, t) => (inl e, s1, Print colors :: t)
      | (None, t) =>
          let t1 := Print colors :: t ++ guide_events x s
                      ++ [SetXticks x; SetXticklabels (feature_list X s)] in
          match (shape X).2 with
          | 0 => (inl IndexError, s1, t1)
          | S n => (inr tt, s1, t1 ++ [SetXlim 0 n])
          end
      end
  end.

(** ** Observations on the recorded calls *)

(** A polyline: the arguments of one [ax.plot] call. *)
Definition plot_event (line : list nat * value * colour * string)
  : event :=
  let '(x, row, c, lbl) := line in Plot x row c lbl.


Definition plot_calls (t : list event)
  : list (list nat * value * colour * string) :=
  omap (λ e, if e is Plot x row c lbl then Some (x, row, c, lbl) else None) t.

Definition axvline_calls (t : list event) : list (nat * gmap string pyval) :=
  omap (λ e, if e is Axvline pos kw then Some (pos, kw) else None) t.

Definition set_xticks_calls (t : list event) : list (list nat) :=
  omap (λ e, if e is SetXticks x then Some x else None) t.

Definition set_xticklabels_calls (t : list event) : list (list string) :=
  omap (λ e, if e is SetXticklabels fs then Some fs else None) t.

Definition set_xlim_calls (t : list event) : list (nat * nat) :=
  omap (λ e, if e is SetXlim lo hi then Some (lo, hi) else None) t.

(** ** Valid input *)

(** A label that indexes a list of [n] classes without raising. *)
Definition index_in_range (n : nat) (l : label) : bool :=
  match l with
  | LInt k => bool_decide (- Z.of_nat n ≤ k < Z.of_nat n)%Z
  | LStr _ => false
  end.

(** [X] yields as many rows as its shape says, [y] has one label per row,
    and every label indexes the class list. *)
Definition valid_input (X : Matrix) (ys : list label)
    (s : ParallelCoordinates) : bool :=
  bool_decide (length (rows X) = (shape X).1)
  && bool_decide (length ys = (shape X).1)
  && match class_list (Some ys) s with
     | Some cls => forallb (index_in_range (length cls)) ys
     | None => false
     end.

(** The three components of a run. *)
Definition outcome {A} (r : (exc + A) * ParallelCoordinates * list event)
  : exc + A := r.1.1.
Definition final {A} (r : (exc + A) * ParallelCoordinates * list event)
  : ParallelCoordinates := r.1.2.
Definition trace {A} (r : (exc + A) * ParallelCoordinates * list event)
  : list event := r.2.

End Pcoords.

Arguments Matrix value : clear implicits.
Arguments event value colour : clear implicits.
Arguments ParallelCoordinates colour : clear implicits.
Arguments init_args colour : clear implicits.
Arguments M value colour A : clear implicits.
Arguments default_args {colour}.

(** ** A concrete visualizer setting

    Used to evaluate the model: rows of integers, colour names, one fixed
    order for the iteration of a set (each distinct label once, at the place
    of its last occurrence), and a palette that names as many colours as
    asked for. *)

Definition distinct_labels : list label → list label := remove_dups.

Definition palette (n : nat) (cm : option string) (c : option (list string))
  : list string :=
  (λ i : nat, String.append "C" (pretty i)) <$> seq 0 n.

(** A 2 x 3 array: iterating it yields its two rows. *)
Definition array23 : Matrix (list Z) :=
  {| shape := (2, 3); rows := [[1; 2; 3]; [4; 5; 6]]%Z; columns := None |}.

(** A 2 x 3 frame with the columns a, b, c: iterating a frame yields its
    three column labels, not its two rows. *)
Definition frame23 : Matrix string :=
  {| shape := (2, 3); rows := ["a"; "b"; "c"]%string;
     columns := Some ["a"; "b"; "c"]%string |}.

(** A fresh visualizer, [ParallelCoordinates()]. *)
Definition fresh : ParallelCoordinates string := init default_args.

(** A visualizer with one explicit class, [ParallelCoordinates(classes=['a'])]. *)
Definition one_class : ParallelCoordinates string :=
  init {| arg_ax := None; arg_features := None;
          arg_classes := Some ["a"%string];
          arg_color := None; arg_colormap := None;
          arg_vlines := true; arg_vlines_kwds := None |}.

(** A visualizer with two explicit feature names,
    [ParallelCoordinates(features=['a', 'b'])]. *)
Definition two_features : ParallelCoordinates string :=
  init {| arg_ax := None; arg_features := Some ["a"; "b"]%string;
          arg_classes := None;
          arg_color := None; arg_colormap := None;
          arg_vlines := true; arg_vlines_kwds := None |}.

(** A colour collaborator that breaks its contract: one colour, whatever
    the number asked for. *)
Definition one_colour (n : nat) (cm : option string)
    (c : option (list string)) : list string :=
  ["C0"%string].

(** A colour collaborator that returns two colours more than asked for. *)
Definition long_palette (n : nat) (cm : option string)
    (c : option (list string)) : list string :=
  palette (n + 2) cm c.

(** A matrix with one row and no column. *)
Definition array10 : Matrix (list Z) :=
  {| shape := (1, 0); rows := [[]]; columns := None |}.

(** ** [poof] *)

(** The calls of [poof]: [legend] and [grid] on [self.ax], then
    [plt.show()]. *)
Inductive poof_event :=
| Legend (a : axes) (loc : string)
| Grid (a : axes)
| PltShow.

(** The exception of an attribute looked up on [None]. *)
Inductive poof_exc :=
| AttributeError (attr : string).

(** [poof] reads [self.ax] and changes nothing in the visualizer; with
    [self.ax] still [None], the first attribute lookup raises. *)
Definition poof {colour} (s : ParallelCoordinates colour)
  : (poof_exc + unit) * list poof_event :=
  match ax s with
  | None => (inl (AttributeError "legend"), [])
  | Some a => (inr tt, [Legend a "best"; Grid a; PltShow])
  end.

(** A label that the loop of [fit] can draw: an integer that indexes the
    class list at a name that has a colour. *)
Definition drawable {colour} (cls : list string)
    (colors : gmap string colour) (l : label) : Prop :=
  ∃ k name c,
    l = LInt k ∧ list_getitem cls k = inr name ∧ colors !! name = Some c.

(** * Facts *)

Section Facts.

Context {value colour : Type}.
Variable set_iter : list label → list label.
Variable resolve_colors :
  nat → option string → option (list colour) → list colour.

Implicit Types (X : Matrix value) (s : ParallelCoordinates colour).
Implicit Types (y : option (list label)) (ys : list label).
Implicit Types (cls : list string) (gca : axes) (t : list (event value colour)).

(** *** Python lists and dictionaries *)

Lemma list_getitem_nonneg {A} (l : list A) (i : nat) :
  list_getitem l (Z.of_nat i)
  = match l !! i with Some a => inr a | None => inl IndexError end.
Proof.
  unfold list_getitem.
  destruct (decide (Z.of_nat i < 0)%Z) as [?|_]; [lia|].
  destruct (decide (0 ≤ Z.of_nat i)%Z) as [_|?]; [|lia].
  by rewrite Nat2Z.id.
Qed.

Lemma list_getitem_in_range {A} (l : list A) (k : Z) :
  (- Z.of_nat (length l) ≤ k < Z.of_nat (length l))%Z →
  ∃ a, list_getitem l k = inr a ∧ a ∈ l.
Proof.
  intros Hk. unfold list_getitem.
  set (j := if decide (k < 0)%Z then (k + Z.of_nat (length l))%Z else k).
  assert (0 ≤ j < Z.of_nat (length l))%Z as Hj
    by (subst j; destruct (decide (k < 0)%Z); lia).
  destruct (decide (0 ≤ j)%Z) as [_|?]; [|lia].
  destruct (lookup_lt_is_Some_2 l (Z.to_nat j)) as [a Ha]; [lia|].
  rewrite Ha. exists a. split; [done|]. by eapply list_elem_of_lookup_2.
Qed.

Lemma list_getitem_out_of_range {A} (l : list A) (k : Z) :
  ¬ (- Z.of_nat (length l) ≤ k < Z.of_nat (length l))%Z →
  list_getitem l k = inl IndexError.
Proof.
  intros Hk. unfold list_getitem.
  set (j := if decide (k < 0)%Z then (k + Z.of_nat (length l))%Z else k).
  destruct (decide (0 ≤ j)%Z) as [Hj|?]; [|done].
  rewrite lookup_ge_None_2; [done|].
  subst j. destruct (decide (k < 0)%Z); lia.
Qed.

(** A pair appended to the list overrides the dictionary built so far. *)
Lemma py_dict_snoc {V} (pairs : list (string * V)) (kv : string * V) :
  py_dict (pairs ++ [kv]) = <[kv.1 := kv.2]> (py_dict pairs).
Proof. unfold py_dict. by rewrite foldl_app. Qed.

(** The last pair with a given key decides the value. *)
Lemma py_dict_lookup_last {V} (l1 l2 : list (string * V)) k v :
  k ∉ l2.*1 → py_dict (l1 ++ (k, v) :: l2) !! k = Some v.
Proof.
  induction l2 as [|[k' v'] l2 IH] using rev_ind; intros Hk.
  - rewrite py_dict_snoc. apply lookup_insert_eq.
  - rewrite fmap_app, not_elem_of_app in Hk. destruct Hk as [Hk Hk'].
    replace (l1 ++ (k, v) :: l2 ++ [(k', v')])
      with ((l1 ++ (k, v) :: l2) ++ [(k', v')]) by by rewrite <- app_assoc.
    rewrite py_dict_snoc, lookup_insert_ne; [by apply IH|].
    cbn in *. set_solver.
Qed.

Lemma py_dict_lookup_None {V} (l : list (string * V)) k :
  k ∉ l.*1 → py_dict l !! k = None.
Proof.
  induction l as [|[k' v'] l IH] using rev_ind; intros Hk; [done|].
  rewrite fmap_app, not_elem_of_app in Hk. destruct Hk as [Hk Hk'].
  rewrite py_dict_snoc, lookup_insert_ne; [by apply IH|].
  cbn in *. set_solver.
Qed.

(** Every key of the list is a key of the dictionary. *)
Lemma py_dict_lookup_is_Some {V} (l : list (string * V)) k :
  k ∈ l.*1 → is_Some (py_dict l !! k).
Proof.
  induction l as [|[k' v'] l IH] using rev_ind; intros Hk.
  - by apply elem_of_nil in Hk.
  - rewrite py_dict_snoc. cbn [fst snd].
    destruct (decide (k' = k)) as [->|Hne].
    + rewrite lookup_insert_eq. by eexists.
    + rewrite lookup_insert_ne by done. apply IH.
      rewrite fmap_app, elem_of_app in Hk. destruct Hk as [Hin|Hin]; [done|].
      cbn in Hin. apply list_elem_of_singleton in Hin. congruence.
Qed.

(** With distinct keys, the [j]-th key is mapped to the [j]-th value: the
    keys and the values are paired by position. *)
Lemma py_dict_zip_lookup {V} (ks : list string) (vs : list V) j k v :
  NoDup ks → ks !! j = Some k → vs !! j = Some v →
  py_dict (zip ks vs) !! k = Some v.
Proof.
  intros Hnd Hk Hv.
  assert (zip ks vs !! j = Some (k, v)) as Hz.
  { rewrite lookup_zip_with, Hk. cbn. by rewrite Hv. }
  destruct (list_elem_of_split_length _ _ _ Hz) as (l1 & l2 & Heq & Hlen).
  rewrite Heq. apply py_dict_lookup_last.
  intros Hin. apply list_elem_of_fmap in Hin as ([k' v'] & Hk' & Hin).
  cbn in Hk'. subst k'.
  apply list_elem_of_lookup in Hin as [j' Hj'].
  assert (zip ks vs !! (length l1 + S j') = Some (k, v')) as Hz'.
  { rewrite Heq, lookup_app_r by lia.
    replace (length l1 + S j' - length l1) with (S j') by lia. done. }
  rewrite lookup_zip_with in Hz'.
  destruct (ks !! (length l1 + S j')) as [k''|] eqn:Hk''; [|done].
  cbn in Hz'. destruct (vs !! (length l1 + S j')); [|done].
  cbn in Hz'. injection Hz' as -> _.
  pose proof (NoDup_lookup _ _ _ _ Hnd Hk Hk''). lia.
Qed.

(** The keys of [dict(zip(ks, vs))] are [ks] when there are enough values. *)
Lemma py_dict_zip_is_Some {V} (ks : list string) (vs : list V) k :
  length ks ≤ length vs → k ∈ ks → is_Some (py_dict (zip ks vs) !! k).
Proof.
  intros Hlen Hk. apply py_dict_lookup_is_Some. by rewrite fst_zip.
Qed.

Lemma enumerate_lookup {A} (l : list A) i a :
  enumerate l !! i = Some a ↔ a.1 = i ∧ l !! i = Some a.2.
Proof.
  unfold enumerate. rewrite lookup_zip_with. destruct a as [i' a]. cbn.
  destruct (l !! i) as [b|] eqn:Hb.
  - rewrite lookup_seq_lt by (by eapply lookup_lt_Some). cbn.
    split; [by intros [= <- <-] | by intros [<- [= <-]]].
  - destruct (seq 0 (length l) !! i); cbn; (split; [done | by intros [_ [=]]]).
Qed.

Lemma enumerate_length {A} (l : list A) : length (enumerate l) = length l.
Proof. unfold enumerate. rewrite length_zip_with, length_seq. lia. Qed.

(** *** Steps of the monad *)

Lemma bind_gets {A B} (f : ParallelCoordinates colour → A)
    (k : A → M value colour B) s :
  bind (gets f) k s = k (f s) s.
Proof. unfold bind, gets. by destruct (k (f s) s) as [[r s2] t2]. Qed.

Lemma bind_ret {A B} (a : A) (k : A → M value colour B) s :
  bind (ret a) k s = k a s.
Proof. unfold bind, ret. by destruct (k a s) as [[r s2] t2]. Qed.

Lemma bind_modify {B} f (k : unit → M value colour B) s :
  bind (modify f) k s = k tt (f s).
Proof. unfold bind, modify. by destruct (k tt (f s)) as [[r s2] t2]. Qed.

Lemma bind_emit {B} (e : event value colour) (k : unit → M value colour B) s :
  bind (emit e) k s = let '(r, s2, t2) := k tt s in (r, s2, e :: t2).
Proof. reflexivity. Qed.

Lemma bind_assoc {A B C} (m : M value colour A) (f : A → M value colour B)
    (k : B → M value colour C) s :
  bind (bind m f) k s = bind m (λ a, bind (f a) k) s.
Proof.
  unfold bind. destruct (m s) as [[[e|a] s1] t1]; [done|].
  destruct (f a s1) as [[[e|b] s2] t2]; [done|].
  destruct (k b s2) as [[r s3] t3]. by rewrite app_assoc.
Qed.

Lemma bind_lift_inr {A B} (a : A) (k : A → M value colour B) s :
  bind (lift (inr a)) k s = k a s.
Proof. unfold bind, lift. by destruct (k a s) as [[r s2] t2]. Qed.

Lemma bind_lift_inl {A B} (e : exc) (k : A → M value colour B) s :
  bind (lift (inl e)) k s = (inl e, s, []).
Proof. reflexivity. Qed.

(** *** Loops *)

(** A loop whose body, in state [s], makes one call or raises and leaves the
    state alone, runs as [collect] says. *)
Lemma for__collect {A} (f : A → exc + event value colour)
    (body : A → M value colour unit) s (l : list A) :
  (∀ a, body a s = match f a with
                   | inr ev => (inr tt, s, [ev])
                   | inl e => (inl e, s, [])
                   end) →
  for_ l body s = match collect f l with
                  | (None, t) => (inr tt, s, t)
                  | (Some e, t) => (inl e, s, t)
                  end.
Proof.
  intros Hbody. induction l as [|a l IH]; [done|].
  cbn [for_ collect]. unfold bind at 1. rewrite Hbody.
  destruct (f a) as [e|ev]; [done|].
  rewrite IH. by destruct (collect f l) as [[e|] t].
Qed.

Lemma collect_app {A} (f : A → exc + event value colour) (l1 l2 : list A) :
  collect f (l1 ++ l2) =
    match collect f l1 with
    | (Some e, t) => (Some e, t)
    | (None, t) => let '(r, t2) := collect f l2 in (r, t ++ t2)
    end.
Proof.
  induction l1 as [|a l1 IH]; cbn [collect app].
  - by destruct (collect f l2).
  - destruct (f a) as [e|ev]; [done|]. rewrite IH.
    destruct (collect f l1) as [[e|] t]; [done|].
    by destruct (collect f l2).
Qed.

(** When no iteration raises, the loop makes one call per element. *)
Lemma collect_all {A} (f : A → exc + event value colour)
    (g : A → event value colour) (l : list A) :
  Forall (λ a, f a = inr (g a)) l → collect f l = (None, g <$> l).
Proof.
  induction 1 as [|a l Ha _ IH]; [done|].
  cbn [collect]. by rewrite Ha, IH.
Qed.

(** The loop stops at the first iteration that raises. *)
Lemma collect_first_error {A} (f : A → exc + event value colour)
    (g : A → event value colour) (l1 l2 : list A) a e :
  Forall (λ a, f a = inr (g a)) l1 → f a = inl e →
  collect f (l1 ++ a :: l2) = (Some e, g <$> l1).
Proof.
  intros H1 Ha. rewrite collect_app, (collect_all f g l1 H1).
  cbn [collect]. rewrite Ha. by rewrite app_nil_r.
Qed.

Lemma plot_instance_run (x : list nat) cls (colors : gmap string colour) y
    (it : nat * value) s :
  classes_ s = Some cls →
  plot_instance x colors y it s =
    match instance_event x cls colors y it with
    | inr ev => (inr tt, s, [ev])
    | inl e => (inl e, s, [])
    end.
Proof.
  intros Hcls. destruct it as [idx row].
  unfold plot_instance, instance_event, y_getitem, classes_getitem.
  destruct y as [ys|]; [|done]. cbn [the_list fst snd].
  unfold bind at 1. unfold bind at 1. unfold ret at 1.
  destruct (list_getitem ys (Z.of_nat idx)) as [e|lbl]; [done|].
  unfold lift at 1.
  unfold bind at 1. unfold bind at 1. unfold gets at 1. unfold bind at 1.
  rewrite Hcls. cbn [the_list]. unfold ret at 1.
  destruct lbl as [k|str]; [|done].
  destruct (list_getitem cls k) as [e|name]; [done|].
  unfold lift at 1. unfold bind at 1. unfold lift at 1.
  by destruct (dict_getitem colors name) as [e|c].
Qed.

Lemma seq_getitem_first n : list_getitem (seq 0 (S n)) 0 = inr 0.
Proof. reflexivity. Qed.

Lemma seq_getitem_last n : list_getitem (seq 0 (S n)) (-1) = inr n.
Proof.
  unfold list_getitem. rewrite length_seq.
  destruct (decide (-1 < 0)%Z) as [_|?]; [|lia].
  destruct (decide (0 ≤ -1 + Z.of_nat (S n))%Z) as [_|?]; [|lia].
  replace (Z.to_nat (-1 + Z.of_nat (S n))) with n by lia.
  by rewrite lookup_seq_lt by lia.
Qed.

Lemma guides_run (x : list nat) s :
  for_ x (λ idx, bind (gets vlines_kwds)
                   (λ kw, emit (Axvline (value:=value) idx kw))) s
  = (inr tt, s, (λ idx, Axvline idx (vlines_kwds s)) <$> x).
Proof.
  rewrite (for__collect (λ idx, inr (Axvline idx (vlines_kwds s)))) by done.
  by rewrite (collect_all _ (λ idx, Axvline idx (vlines_kwds s)))
    by by apply Forall_forall.
Qed.

(** *** The loop over the instances *)

(** An iteration that does not raise has looked up the label of the
    instance, the class at that index, and the colour of that class. *)
Lemma instance_event_inr (x : list nat) cls (colors : gmap string colour) y
    (it : nat * value) ev :
  instance_event x cls colors y it = inr ev ↔
  ∃ ys k name c,
    y = Some ys ∧ list_getitem ys (Z.of_nat it.1) = inr (LInt k) ∧
    list_getitem cls k = inr name ∧ colors !! name = Some c ∧
    ev = Plot x it.2 c name.
Proof.
  unfold instance_event, dict_getitem. split.
  - destruct y as [ys|]; [|done].
    destruct (list_getitem ys (Z.of_nat it.1)) as [e|[k|str]] eqn:Hl;
      [done| |done].
    destruct (list_getitem cls k) as [e|name] eqn:Hn; [done|].
    destruct (colors !! name) as [c|] eqn:Hc; [|done].
    intros [= <-]. by exists ys, k, name, c.
  - intros (ys & k & name & c & -> & -> & -> & -> & ->). done.
Qed.

(** The calls of the loop are [plot] calls, one per instance up to the
    first that raises. *)
Lemma collect_instances (x : list nat) cls (colors : gmap string colour) y
    (its : list (nat * value)) :
  ∃ lines,
    (collect (instance_event x cls colors y) its).2 = plot_event <$> lines ∧
    Forall2 (λ it line,
               instance_event x cls colors y it = inr (plot_event line))
            (take (length lines) its) lines ∧
    ((collect (instance_event x cls colors y) its).1 = None →
     length lines = length its).
Proof.
  induction its as [|it its (lines & Ht & Hl & Hn)]; [by exists []|].
  cbn [collect].
  destruct (instance_event x cls colors y it) as [e|ev] eqn:Hit.
  { exists []. by repeat split. }
  destruct (collect (instance_event x cls colors y) its) as [r t].
  cbn [fst snd] in *.
  apply instance_event_inr in Hit as Hit'.
  destruct Hit' as (ys & k & name & c & _ & _ & _ & _ & ->).
  exists ((x, it.2, c, name) :: lines). cbn [fmap list_fmap length take].
  split; [by rewrite Ht|]. split; [by constructor|].
  intros Hr. by rewrite Hn.
Qed.

Lemma plot_calls_plot_events
    (lines : list (list nat * value * colour * string)) :
  plot_calls (plot_event <$> lines) = lines.
Proof.
  induction lines as [|[[[x row] c] lbl] lines IH]; [done|].
  cbn. by f_equal.
Qed.

Lemma axvline_calls_plot_events
    (lines : list (list nat * value * colour * string)) :
  axvline_calls (plot_event <$> lines) = [].
Proof. by induction lines as [|[[[x row] c] lbl] lines IH]. Qed.

Lemma set_xticks_calls_plot_events
    (lines : list (list nat * value * colour * string)) :
  set_xticks_calls (plot_event <$> lines) = [].
Proof. by induction lines as [|[[[x row] c] lbl] lines IH]. Qed.

Lemma set_xticklabels_calls_plot_events
    (lines : list (list nat * value * colour * string)) :
  set_xticklabels_calls (plot_event <$> lines) = [].
Proof. by induction lines as [|[[[x row] c] lbl] lines IH]. Qed.

Lemma set_xlim_calls_plot_events
    (lines : list (list nat * value * colour * string)) :
  set_xlim_calls (plot_event <$> lines) = [].
Proof. by induction lines as [|[[[x row] c] lbl] lines IH]. Qed.

Lemma plot_calls_guides (x : list nat) s :
  plot_calls (guide_events (value:=value) x s) = [].
Proof. unfold guide_events. destruct (show_vlines s); by induction x. Qed.

Lemma set_xticks_calls_guides (x : list nat) s :
  set_xticks_calls (guide_events (value:=value) x s) = [].
Proof. unfold guide_events. destruct (show_vlines s); by induction x. Qed.

Lemma set_xticklabels_calls_guides (x : list nat) s :
  set_xticklabels_calls (guide_events (value:=value) x s) = [].
Proof. unfold guide_events. destruct (show_vlines s); by induction x. Qed.

Lemma set_xlim_calls_guides (x : list nat) s :
  set_xlim_calls (guide_events (value:=value) x s) = [].
Proof. unfold guide_events. destruct (show_vlines s); by induction x. Qed.

Lemma axvline_calls_guides (x : list nat) s :
  axvline_calls (guide_events (value:=value) x s)
  = if show_vlines s then (λ idx, (idx, vlines_kwds s)) <$> x else [].
Proof.
  unfold guide_events. destruct (show_vlines s); [|done].
  induction x as [|idx x IH]; [done|]. cbn. by f_equal.
Qed.

Lemma plot_calls_app t1 t2 :
  plot_calls (t1 ++ t2) = plot_calls t1 ++ plot_calls t2.
Proof. apply omap_app. Qed.

Lemma axvline_calls_app t1 t2 :
  axvline_calls (t1 ++ t2) = axvline_calls t1 ++ axvline_calls t2.
Proof. apply omap_app. Qed.

Lemma set_xticks_calls_app t1 t2 :
  set_xticks_calls (t1 ++ t2) = set_xticks_calls t1 ++ set_xticks_calls t2.
Proof. apply omap_app. Qed.

Lemma set_xticklabels_calls_app t1 t2 :
  set_xticklabels_calls (t1 ++ t2)
  = set_xticklabels_calls t1 ++ set_xticklabels_calls t2.
Proof. apply omap_app. Qed.

Lemma set_xlim_calls_app t1 t2 :
  set_xlim_calls (t1 ++ t2) = set_xlim_calls t1 ++ set_xlim_calls t2.
Proof. apply omap_app. Qed.

(** [fit] computes [fit_closed]. *)
Lemma fit_unfold gca X y s :
  fit set_iter resolve_colors gca X y s
  = fit_closed set_iter resolve_colors gca X y s.
Proof.
  unfold fit, fit_closed, class_list.
  destruct X as [[nrows ncols] rws cols], s as [a fs c co cm sv kw].
  cbn [shape rows columns snd].
  rewrite bind_gets. cbn [classes_].
  destruct c as [c|];
    [ rewrite bind_ret
    | destruct y as [ys|];
      [ rewrite bind_assoc; unfold iter_set; rewrite bind_ret, bind_modify;
        change ((λ ys, str <$> set_iter ys) <$> Some ys)
          with (Some (str <$> set_iter ys))
      | reflexivity ] ];
  (rewrite bind_gets; unfold set_classes_; cbn [features_];
   destruct fs as [fs|];
     [ rewrite bind_ret | destruct cols as [cols|]; rewrite bind_modify ];
   rewrite bind_gets; unfold set_features_; cbn [ax];
   (destruct a as [a|]; [ rewrite bind_ret | rewrite bind_modify ]);
   unfold set_ax;
   cbn [ax features_ classes_ color colormap show_vlines vlines_kwds]).
  all: rewrite bind_gets; cbn [classes_ the_list]; rewrite bind_ret.
  all: rewrite !bind_gets. all: rewrite bind_emit.
  all: unfold color_map, color_values, resolved, feature_list, guide_events.
  all: cbn [ax features_ classes_ color colormap show_vlines vlines_kwds shape columns snd].
  all: unfold bind at 1.
  all: erewrite for__collect by (intros; by apply plot_instance_run).
  all: match goal with
       | |- context [collect ?f ?l] => destruct (collect f l) as [[e|] t]
       end; [reflexivity|].
  all: rewrite bind_gets; cbn [show_vlines].
  all: destruct sv; [unfold bind at 1; rewrite guides_run | rewrite bind_ret].
  all: rewrite bind_emit, bind_gets; cbn [features_ the_list vlines_kwds];
       rewrite bind_ret, bind_emit.
  all: destruct ncols as [|n];
       [ reflexivity
       | rewrite seq_getitem_first, bind_lift_inr,
                 seq_getitem_last, bind_lift_inr ].
  all: unfold emit; cbn [default from_option id app].
  all: by rewrite <- ?app_assoc.
Qed.

(** The shape of every run that gets past the resolution of the classes:
    the loop either stops at an exception, with the lines drawn so far, or
    draws every instance and the decoration follows. *)
Lemma fit_run gca X y s cls :
  class_list set_iter y s = Some cls →
  let x := seq 0 (shape X).2 in
  let colors := color_map resolve_colors cls s in
  let loop := collect (instance_event x cls colors y) (enumerate (rows X)) in
  ∃ lines,
    Forall2 (λ it line, instance_event x cls colors y it = inr (plot_event line))
            (take (length lines) (enumerate (rows X))) lines ∧
    ((∃ e, loop.1 = Some e ∧
           fit set_iter resolve_colors gca X y s
           = (inl e, resolved gca X cls s,
              Print colors :: (plot_event <$> lines)))
     ∨ (loop.1 = None ∧ length lines = length (rows X) ∧
        fit set_iter resolve_colors gca X y s
        = (match (shape X).2 with 0 => inl IndexError | S _ => inr tt end,
           resolved gca X cls s,
           Print colors :: (plot_event <$> lines) ++ guide_events x s
             ++ [SetXticks x; SetXticklabels (feature_list X s)]
             ++ match (shape X).2 with 0 => [] | S n => [SetXlim 0 n] end))).
Proof.
  intros Hcls x colors loop.
  destruct (collect_instances x cls colors y (enumerate (rows X)))
    as (lines & Ht & Hl & Hn).
  exists lines. split; [done|].
  rewrite fit_unfold. unfold fit_closed. rewrite Hcls.
  fold x colors loop in Ht, Hn |- *.
  destruct loop as [[e|] t]; cbn [fst snd] in *; subst t.
  - left. by exists e.
  - right. rewrite Hn, enumerate_length by done. do 2 (split; [done|]).
    destruct (shape X).2 as [|n]; [by rewrite app_nil_r|].
    cbn [app]. by rewrite <- !app_assoc.
Qed.

(** *** Valid input *)

Lemma valid_input_spec X ys s :
  valid_input set_iter X ys s = true ↔
  length (rows X) = (shape X).1 ∧ length ys = (shape X).1 ∧
  ∃ cls, class_list set_iter (Some ys) s = Some cls ∧
         Forall (λ l, index_in_range (length cls) l = true) ys.
Proof.
  unfold valid_input. rewrite !andb_true_iff, !bool_decide_eq_true.
  destruct (class_list set_iter (Some ys) s) as [cls|].
  - split.
    + intros [[? ?] Hall]. do 2 (split; [done|]). exists cls. split; [done|].
      apply Forall_forall. intros l Hl%list_elem_of_In.
      rewrite forallb_forall in Hall. by apply Hall.
    + intros (? & ? & cls' & [= <-] & Hall). split; [by split|].
      apply forallb_forall. intros l Hl%list_elem_of_In.
      rewrite Forall_forall in Hall. by apply Hall.
  - split; [by intros [_ ?]|]. by intros (_ & _ & cls & ? & _).
Qed.

Lemma index_in_range_spec n l :
  index_in_range n l = true ↔
  ∃ k, l = LInt k ∧ (- Z.of_nat n ≤ k < Z.of_nat n)%Z.
Proof.
  destruct l as [k|str]; cbn.
  - rewrite bool_decide_eq_true. split; [by exists k|]. by intros (? & [= <-] & ?).
  - split; [done|]. by intros (? & [=] & _).
Qed.

(** An iteration whose label indexes the class list does not raise, given
    as many colours as classes. *)
Lemma instance_event_ok (x : list nat) cls (cvs : list colour) ys
    (it : nat * value) l :
  length cls ≤ length cvs →
  ys !! it.1 = Some l → index_in_range (length cls) l = true →
  ∃ ev, instance_event x cls (py_dict (zip cls cvs)) (Some ys) it = inr ev.
Proof.
  intros Hlen Hl (k & -> & Hk)%index_in_range_spec.
  destruct (list_getitem_in_range cls k Hk) as (name & Hname & Hin).
  destruct (py_dict_zip_is_Some cls cvs name Hlen Hin) as [c Hc].
  exists (Plot x it.2 c name). apply instance_event_inr.
  exists ys, k, name, c. by rewrite list_getitem_nonneg, Hl.
Qed.

(** An iteration whose label is an integer outside the class list raises
    [IndexError]. *)
Lemma instance_event_out_of_range (x : list nat) cls
    (colors : gmap string colour) ys (it : nat * value) k :
  ys !! it.1 = Some (LInt k) →
  ¬ (- Z.of_nat (length cls) ≤ k < Z.of_nat (length cls))%Z →
  instance_event x cls colors (Some ys) it = inl IndexError.
Proof.
  intros Hl Hk. unfold instance_event.
  by rewrite list_getitem_nonneg, Hl, list_getitem_out_of_range.
Qed.

Lemma collect_no_error {A} (f : A → exc + event value colour) (l : list A) :
  Forall (λ a, ∃ ev, f a = inr ev) l → (collect f l).1 = None.
Proof.
  induction 1 as [|a l [ev Ha] _ IH]; [done|].
  cbn [collect]. rewrite Ha. by destruct (collect f l).
Qed.

(** On valid input, with as many colours as classes, no iteration of the
    loop raises. *)
Lemma instances_ok X ys s cls :
  resolve_colors_contract resolve_colors →
  valid_input set_iter X ys s = true →
  class_list set_iter (Some ys) s = Some cls →
  (collect (instance_event (seq 0 (shape X).2) cls
              (color_map resolve_colors cls s) (Some ys))
           (enumerate (rows X))).1 = None.
Proof.
  intros Hrc (Hrows & Hys & cls' & Hcls' & Hall)%valid_input_spec Hcls.
  rewrite Hcls in Hcls'. injection Hcls' as <-.
  apply collect_no_error, Forall_lookup.
  intros i it [Hi Hit%lookup_lt_Some]%enumerate_lookup.
  destruct (lookup_lt_is_Some_2 ys it.1) as [l Hl]; [lia|].
  eapply instance_event_ok; [|done|].
  - unfold color_values. by rewrite Hrc.
  - by eapply (proj1 (Forall_lookup _ _) Hall).
Qed.

End Facts.

Create Rewrite HintDb calls.

#[export] Hint Rewrite
  @plot_calls_app @axvline_calls_app @set_xticks_calls_app
  @set_xticklabels_calls_app @set_xlim_calls_app
  @plot_calls_plot_events @axvline_calls_plot_events
  @set_xticks_calls_plot_events @set_xticklabels_calls_plot_events
  @set_xlim_calls_plot_events
  @plot_calls_guides @axvline_calls_guides @set_xticks_calls_guides
  @set_xticklabels_calls_guides @set_xlim_calls_guides : calls.

(** Splits a recorded run into its segments and reads off the calls of each
    kind. *)
Ltac read_calls :=
  cbn [trace outcome final fst snd];
  repeat match goal with
         | |- context [Print ?c :: ?t] =>
             lazymatch t with
             | [] => fail
             | _ => change (Print c :: t) with ([Print c] ++ t)
             end
         end;
  autorewrite with calls;
  cbn [plot_calls axvline_calls set_xticks_calls set_xticklabels_calls
       set_xlim_calls omap list_omap app].

Section Claims.

Context {value colour : Type}.
Variable set_iter : list label → list label.
Variable resolve_colors :
  nat → option string → option (list colour) → list colour.

Implicit Types (X : Matrix value) (s : ParallelCoordinates colour).
Implicit Types (y : option (list label)) (ys : list label).
Implicit Types (cls : list string) (gca : axes) (t : list (event value colour)).

(** X15. For an input of shape (N, F) whose iteration yields exactly N
    items (a two-dimensional array yields its N rows; a frame yields its F
    column labels instead, see [fit_on_frame_iterates_column_labels]), a
    label vector of length N whose labels all index the class list, and a
    colour collaborator that returns one colour per class, [fit] calls
    [ax.plot] exactly N times and [ax.set_xticks] once, with exactly F tick
    positions; when F is not zero it returns normally. *)
Theorem fit_draws_N_lines_and_F_ticks gca X ys s N F :
  resolve_colors_contract resolve_colors →
  shape X = (N, F) →
  valid_input set_iter X ys s = true →
  let r := fit set_iter resolve_colors gca X (Some ys) s in
  length (plot_calls (trace r)) = N ∧
  (∃ x, set_xticks_calls (trace r) = [x] ∧ length x = F) ∧
  (0 < F → outcome r = inr tt).
Proof.
  intros Hrc Hshape Hvalid r. subst r.
  pose proof Hvalid as (Hrows & Hys & cls & Hcls & Hall)%valid_input_spec.
  pose proof (instances_ok _ _ X ys s cls Hrc Hvalid Hcls) as Hok.
  destruct (fit_run set_iter resolve_colors gca X (Some ys) s cls Hcls)
    as (lines & _ & [(e & He & _)|(_ & Hlen & ->)]); [congruence|].
  rewrite Hshape in *. cbn [fst snd] in *. read_calls.
  rewrite length_app.
  split; [destruct F; cbn; lia|]. split.
  - exists (seq 0 F). split; [by destruct F|]. apply length_seq.
  - by destruct F; [lia|].
Qed.

(** C2. On valid input [fit] draws instance i as follows: the raw label
    y[i] is an integer k, the class name is classes_[k] (Python indexing into
    the resolved class list), the colour is the entry of that name in
    dict(zip(classes_, color_values)), and the i-th [ax.plot] call gets the
    axis positions, the row, that colour and that name as label.  The
    mapping pairs classes and colours by position: when the class names are
    distinct, the j-th class is mapped to the j-th colour. *)
Theorem fit_plots_instance_by_label_index gca X ys s :
  resolve_colors_contract resolve_colors →
  valid_input set_iter X ys s = true →
  let r := fit set_iter resolve_colors gca X (Some ys) s in
  ∃ cls,
    classes_ (final r) = Some cls ∧
    let cvs := resolve_colors (length cls) (colormap s) (color s) in
    let colors := py_dict (zip cls cvs) in
    (∀ i row, rows X !! i = Some row →
       ∃ k name c,
         ys !! i = Some (LInt k) ∧
         list_getitem cls k = inr name ∧
         colors !! name = Some c ∧
         plot_calls (trace r) !! i = Some (seq 0 (shape X).2, row, c, name)) ∧
    (NoDup cls → ∀ j name, cls !! j = Some name → colors !! name = cvs !! j).
Proof.
  intros Hrc Hvalid r. subst r.
  pose proof Hvalid as (Hrows & Hys & cls & Hcls & Hall)%valid_input_spec.
  pose proof (instances_ok _ _ X ys s cls Hrc Hvalid Hcls) as Hok.
  destruct (fit_run set_iter resolve_colors gca X (Some ys) s cls Hcls)
    as (lines & Hlines & [(e & He & _)|(_ & Hlen & ->)]); [congruence|].
  exists cls. split; [done|]. cbn zeta. split.
  - intros i row Hrow.
    rewrite take_ge in Hlines by (rewrite enumerate_length; lia).
    assert (enumerate (rows X) !! i = Some (i, row)) as Hit
      by by apply enumerate_lookup.
    destruct (Forall2_lookup_l _ _ _ _ _ Hlines Hit) as (line & Hline & Hev).
    apply instance_event_inr in Hev
      as (ys' & k & name & c & [= <-] & Hk & Hname & Hc & Hplot).
    cbn [fst snd] in *. rewrite list_getitem_nonneg in Hk.
    destruct (ys !! i) as [l|] eqn:Hl; [|done]. injection Hk as ->.
    exists k, name, c. repeat split; [done..|].
    read_calls. rewrite lookup_app_l by by eapply lookup_lt_Some.
    destruct line as [[[x' row'] c'] name']. cbn in Hplot.
    by injection Hplot as -> -> -> ->.
  - intros Hnd j name Hj.
    destruct (lookup_lt_is_Some_2
                (resolve_colors (length cls) (colormap s) (color s)) j)
      as [c Hc].
    { rewrite Hrc. by eapply lookup_lt_Some. }
    rewrite Hc. by eapply py_dict_zip_lookup.
Qed.

(** C3. When the visualizer has no feature names and the class step does not
    raise (classes were given, or a label vector is), [fit] leaves in
    [features_] the column labels of [X] if [X] has a [columns] attribute,
    and otherwise the decimal numerals of 0 .. F-1, F being the number of
    columns of [X.shape].  This holds whether or not a later step raises. *)
Theorem fit_resolves_feature_names gca X y s F :
  features_ s = None →
  (shape X).2 = F →
  is_Some (classes_ s) ∨ is_Some y →
  features_ (final (fit set_iter resolve_colors gca X y s))
  = Some match columns X with
         | Some cols => cols
         | None => pretty <$> seq 0 F
         end.
Proof.
  intros Hfs <- Hcls.
  assert (is_Some (class_list set_iter y s)) as [cls Hcl].
  { unfold class_list. destruct Hcls as [[c ->]|[ys ->]]; [by eexists|].
    destruct (classes_ s); by eexists. }
  destruct (fit_run set_iter resolve_colors gca X y s cls Hcl)
    as (lines & _ & [(e & _ & ->)|(_ & _ & ->)]);
    cbn [final fst snd resolved features_]; unfold feature_list;
    by rewrite Hfs.
Qed.

(** C4, as the code has it. With no label vector and no class list, [fit]
    stops at the class step with the interpreter's [TypeError] of
    [set(None)], not with an error of its own: the visualizer is unchanged
    and no call has been made on the axes, so no line is drawn. *)
Theorem fit_without_labels_or_classes_raises gca X s :
  classes_ s = None →
  fit set_iter resolve_colors gca X None s = (inl TypeError, s, []).
Proof.
  intros Hcls. rewrite fit_unfold. unfold fit_closed, class_list.
  by rewrite Hcls.
Qed.

(** C5, as the code has it. [fit] never compares the length of an explicit
    feature list with the number of columns: when they disagree, on
    otherwise valid input, it still draws all N lines and sets the F tick
    positions, and it passes the explicit list unchanged to
    [set_xticklabels]; it returns normally when F is not zero. *)
Theorem fit_does_not_check_feature_count gca X ys s fs N F :
  resolve_colors_contract resolve_colors →
  shape X = (N, F) →
  valid_input set_iter X ys s = true →
  features_ s = Some fs →
  length fs ≠ F →
  let r := fit set_iter resolve_colors gca X (Some ys) s in
  length (plot_calls (trace r)) = N ∧
  set_xticks_calls (trace r) = [seq 0 F] ∧
  set_xticklabels_calls (trace r) = [fs] ∧
  features_ (final r) = Some fs ∧
  (0 < F → outcome r = inr tt).
Proof.
  intros Hrc Hshape Hvalid Hfs _ r. subst r.
  pose proof Hvalid as (Hrows & Hys & cls & Hcls & Hall)%valid_input_spec.
  pose proof (instances_ok _ _ X ys s cls Hrc Hvalid Hcls) as Hok.
  destruct (fit_run set_iter resolve_colors gca X (Some ys) s cls Hcls)
    as (lines & _ & [(e & He & _)|(_ & Hlen & ->)]); [congruence|].
  rewrite Hshape in *. cbn [fst snd] in *. read_calls.
  cbn [resolved features_]. unfold feature_list. rewrite Hfs, length_app.
  split; [destruct F; cbn; lia|].
  do 2 (split; [by destruct F|]). split; [done|].
  destruct F; [lia|done].
Qed.

(** C6, as the code has it. When the label of instance i is an integer
    outside the bounds of the class list, and the labels of the instances
    before i index the class list, [fit] raises the interpreter's
    [IndexError] at instance i, after it has drawn the i lines before it.
    [IndexError] has no argument: the exception does not say which
    instance it was. *)
Theorem fit_out_of_range_label_raises gca X ys s cls i k :
  resolve_colors_contract resolve_colors →
  class_list set_iter (Some ys) s = Some cls →
  i < length (rows X) →
  Forall (λ l, index_in_range (length cls) l = true) (take i ys) →
  ys !! i = Some (LInt k) →
  ¬ (- Z.of_nat (length cls) ≤ k < Z.of_nat (length cls))%Z →
  let r := fit set_iter resolve_colors gca X (Some ys) s in
  outcome r = inl IndexError ∧ length (plot_calls (trace r)) = i.
Proof.
  intros Hrc Hcls Hi Hpre Hk Hout r. subst r.
  set (x := seq 0 (shape X).2).
  set (colors := color_map resolve_colors cls s).
  set (f := instance_event (value:=value) x cls colors (Some ys)).
  destruct (lookup_lt_is_Some_2 (rows X) i Hi) as [row Hrow].
  assert (enumerate (rows X) !! i = Some (i, row)) as Hit
    by by apply enumerate_lookup.
  assert (Forall (λ it, ∃ ev, f it = inr ev) (take i (enumerate (rows X))))
    as Hok.
  { apply Forall_lookup. intros j it [Hj Hlt]%lookup_take_Some.
    apply enumerate_lookup in Hj as [Hj _].
    destruct (lookup_lt_is_Some_2 ys j) as [l Hl].
    { apply lookup_lt_Some in Hk. lia. }
    eapply instance_event_ok; [| by rewrite Hj |].
    - unfold color_values. by rewrite Hrc.
    - apply (proj1 (Forall_lookup _ _) Hpre j). by rewrite lookup_take_lt. }
  destruct (collect_instances x cls colors (Some ys)
              (take i (enumerate (rows X)))) as (lines & Ht & _ & Hn).
  fold f in Ht, Hn. specialize (Hn (collect_no_error _ _ Hok)).
  rewrite length_take_le in Hn
    by (rewrite enumerate_length; lia).
  rewrite fit_unfold. unfold fit_closed. rewrite Hcls. fold x colors f.
  rewrite <- (take_drop_middle _ _ _ Hit), collect_app.
  pose proof (collect_no_error _ _ Hok) as Hnone.
  destruct (collect f (take i (enumerate (rows X)))) as [r t].
  cbn [fst snd] in *. subst r t. cbn [collect].
  replace (f (i, row)) with (inl IndexError : exc + event value colour)
    by (symmetry; by eapply instance_event_out_of_range).
  split; [done|]. read_calls. by rewrite app_nil_r.
Qed.

(** C7. When [fit] returns (which needs F > 0), its last three calls are
    [set_xticks] with the positions 0 .. F-1, [set_xticklabels] with the
    feature names held by the visualizer, and [set_xlim(0, F-1)]; they are
    the only calls of their kind. *)
Theorem fit_sets_ticks_and_extent gca X y s F :
  (shape X).2 = F →
  let r := fit set_iter resolve_colors gca X y s in
  outcome r = inr tt →
  ∃ fs t,
    features_ (final r) = Some fs ∧
    trace r = t ++ [SetXticks (seq 0 F); SetXticklabels fs; SetXlim 0 (F - 1)] ∧
    set_xticks_calls (trace r) = [seq 0 F] ∧
    set_xticklabels_calls (trace r) = [fs] ∧
    set_xlim_calls (trace r) = [(0, F - 1)] ∧
    0 < F.
Proof.
  intros <- r Hret. subst r.
  destruct (class_list set_iter y s) as [cls|] eqn:Hcl.
  2:{ rewrite fit_unfold in Hret. unfold fit_closed in Hret.
      by rewrite Hcl in Hret. }
  destruct (fit_run set_iter resolve_colors gca X y s cls Hcl)
    as (lines & _ & [(e & _ & Hfit)|(_ & _ & Hfit)]);
    rewrite Hfit in Hret |- *; [done|].
  cbn [outcome fst snd] in Hret.
  destruct (shape X).2 as [|n]; [done|].
  exists (feature_list X s),
    (Print (color_map resolve_colors cls s) :: (plot_event <$> lines)
       ++ guide_events (seq 0 (S n)) s).
  replace (S n - 1) with n by lia.
  split; [done|]. split.
  { cbn [trace snd app]. by rewrite <- !app_assoc. }
  read_calls. repeat split. lia.
Qed.

(** C8. A visualizer built by the constructor, fitted on valid input, calls
    [axvline] once at each of the positions 0 .. F-1, in order, when the
    [vlines] argument is true, and never when it is false.  The style passed
    is linewidth 1 and colour black when no [vlines_kwds] was given, and the
    stored style otherwise.  The default of [vlines] is true. *)
Theorem fit_draws_guide_lines gca X ys N F (a : init_args colour) :
  resolve_colors_contract resolve_colors →
  shape X = (N, F) →
  valid_input set_iter X ys (init a) = true →
  let r := fit set_iter resolve_colors gca X (Some ys) (init a) in
  let style :=
    match arg_vlines_kwds a with
    | None => {[ "linewidth" := VInt 1; "color" := VStr "black" ]}
    | Some _ => vlines_kwds (init a)
    end in
  axvline_calls (trace r)
  = (if arg_vlines a then (λ idx, (idx, style)) <$> seq 0 F else []) ∧
  arg_vlines (default_args (colour:=colour)) = true.
Proof.
  intros Hrc Hshape Hvalid r style. subst r.
  pose proof Hvalid as (Hrows & Hys & cls & Hcls & Hall)%valid_input_spec.
  pose proof (instances_ok _ _ X ys (init a) cls Hrc Hvalid Hcls) as Hok.
  destruct (fit_run set_iter resolve_colors gca X (Some ys) (init a) cls Hcls)
    as (lines & _ & [(e & He & _)|(_ & Hlen & ->)]); [congruence|].
  rewrite Hshape in *. cbn [fst snd] in *. split; [|done]. read_calls.
  assert (vlines_kwds (init a) = style) as ->.
  { subst style. destruct a as [? ? ? ? ? ? [d|]]; [done|]. by vm_compute. }
  cbn [init show_vlines].
  destruct (arg_vlines a), F; cbn; by rewrite ?app_nil_r.
Qed.

(** C9. The resolved lists are cached: a visualizer that holds a feature
    list and a class list keeps both through [fit], whatever the input; any
    [fit] that returns leaves both lists set; and a second [fit] on the same
    input leaves in the visualizer the lists the first one left. *)
Theorem fit_resolution_idempotent gca X y s :
  let s1 := final (fit set_iter resolve_colors gca X y s) in
  let s2 := final (fit set_iter resolve_colors gca X y s1) in
  (classes_ s2 = classes_ s1 ∧ features_ s2 = features_ s1) ∧
  (∀ gca' X' y' cls fs,
     classes_ s = Some cls → features_ s = Some fs →
     let s' := final (fit set_iter resolve_colors gca' X' y' s) in
     classes_ s' = Some cls ∧ features_ s' = Some fs) ∧
  (outcome (fit set_iter resolve_colors gca X y s) = inr tt →
   is_Some (classes_ s1) ∧ is_Some (features_ s1)).
Proof.
  assert (∀ gca' X' y' s' cls fs,
            classes_ s' = Some cls → features_ s' = Some fs →
            let s'' := final (fit set_iter resolve_colors gca' X' y' s') in
            classes_ s'' = Some cls ∧ features_ s'' = Some fs) as Hcached.
  { intros gca' X' y' s' cls fs Hc Hf.
    assert (class_list set_iter y' s' = Some cls) as Hcl
      by (unfold class_list; by rewrite Hc).
    destruct (fit_run set_iter resolve_colors gca' X' y' s' cls Hcl)
      as (lines & _ & [(e & _ & ->)|(_ & _ & ->)]);
      cbn [final fst snd resolved features_ classes_]; unfold feature_list;
      by rewrite Hf. }
  assert (class_list set_iter y s = None →
          fit set_iter resolve_colors gca X y s = (inl TypeError, s, []))
    as Hnone.
  { intros Hcl. rewrite fit_unfold. unfold fit_closed. by rewrite Hcl. }
  assert (∀ cls, class_list set_iter y s = Some cls →
            let s1 := final (fit set_iter resolve_colors gca X y s) in
            classes_ s1 = Some cls ∧ features_ s1 = Some (feature_list X s))
    as Hsome.
  { intros cls Hcl.
    by destruct (fit_run set_iter resolve_colors gca X y s cls Hcl)
      as (lines & _ & [(e & _ & ->)|(_ & _ & ->)]). }
  cbn zeta. split; [|split].
  - destruct (class_list set_iter y s) as [cls|] eqn:Hcl.
    + destruct (Hsome cls eq_refl) as [Hc Hf].
      destruct (Hcached gca X y _ _ _ Hc Hf) as [-> ->]. by rewrite Hc, Hf.
    + rewrite !(Hnone eq_refl). cbn [final fst snd]. by rewrite !(Hnone eq_refl).
  - intros gca' X' y' cls fs Hc Hf. by apply Hcached.
  - intros Hret.
    destruct (class_list set_iter y s) as [cls|] eqn:Hcl.
    + destruct (Hsome cls eq_refl) as [-> ->]. by split; eexists.
    + by rewrite (Hnone eq_refl) in Hret.
Qed.

(** C10. The constructor stores the default style whenever the argument
    [vlines_kwds] is false as a truth value: for [None] and for the empty
    dictionary alike.  A non-empty argument is stored as it is, so the
    stored style is never empty. *)
Theorem init_replaces_empty_vlines_kwds
    (a : option axes) (fs cls : option (list string))
    (co : option (list colour)) (cm : option string) (vl : bool)
    (kw : option (gmap string pyval)) :
  let new kw := init {| arg_ax := a; arg_features := fs; arg_classes := cls;
                        arg_color := co; arg_colormap := cm;
                        arg_vlines := vl; arg_vlines_kwds := kw |} in
  vlines_kwds (new (Some ∅)) = default_vlines_kwds ∧
  new (Some ∅) = new None ∧
  vlines_kwds (new kw)
  = match kw with
    | Some d => if decide (d = ∅) then default_vlines_kwds else d
    | None => default_vlines_kwds
    end ∧
  vlines_kwds (new kw) ≠ ∅.
Proof.
  cbn zeta. unfold init. cbn [vlines_kwds arg_vlines_kwds].
  assert (default_vlines_kwds ≠ ∅) as Hne.
  { intros Heq. apply (f_equal (λ d, d !! "color"%string)) in Heq.
    by vm_compute in Heq. }
  assert (dict_or kw default_vlines_kwds
          = match kw with
            | Some d => if decide (d = ∅) then default_vlines_kwds else d
            | None => default_vlines_kwds
            end) as Hor.
  { destruct kw as [d|]; [|done]. unfold dict_or, dict_truthy.
    destruct (decide (d = ∅)) as [->|Hd].
    - by rewrite bool_decide_eq_true_2.
    - by rewrite bool_decide_eq_false_2. }
  split; [reflexivity|]. split; [reflexivity|]. split; [exact Hor|].
  rewrite Hor. destruct kw as [d|]; [|exact Hne].
  destruct (decide (d = ∅)); [exact Hne | assumption].
Qed.

End Claims.

(** * Further behaviour of [fit] and [poof] *)

Section Behaviour.

Context {value colour : Type}.
Variable set_iter : list label → list label.
Variable resolve_colors :
  nat → option string → option (list colour) → list colour.

Implicit Types (X : Matrix value) (s : ParallelCoordinates colour).
Implicit Types (y : option (list label)) (ys : list label).
Implicit Types (cls : list string) (gca : axes) (t : list (event value colour)).

(** The class step passes exactly when classes or labels are there. *)
Lemma class_list_is_Some y s :
  is_Some (class_list set_iter y s) ↔ is_Some (classes_ s) ∨ is_Some y.
Proof.
  unfold class_list. rewrite <- !not_eq_None_Some.
  destruct (classes_ s) as [c|], y as [ys|]; cbn; split; intros H;
    try done; try (by left); try (by right).
  by destruct H.
Qed.

Lemma fit_class_step_raises gca X y s :
  class_list set_iter y s = None →
  fit set_iter resolve_colors gca X y s = (inl TypeError, s, []).
Proof.
  intros Hcl. rewrite fit_unfold. unfold fit_closed. by rewrite Hcl.
Qed.

(** The visualizer that [fit] leaves, when the class step passes. *)
Lemma fit_final gca X y s cls :
  class_list set_iter y s = Some cls →
  final (fit set_iter resolve_colors gca X y s) = resolved gca X cls s.
Proof.
  intros Hcl.
  by destruct (fit_run set_iter resolve_colors gca X y s cls Hcl)
    as (lines & _ & [(e & _ & ->)|(_ & _ & ->)]).
Qed.

(** The loop stops at the first instance that raises: the lines of the
    instances before it are drawn, and nothing else is. *)
Lemma fit_first_error gca X y s cls i row e :
  class_list set_iter y s = Some cls →
  rows X !! i = Some row →
  let f := instance_event (value:=value) (seq 0 (shape X).2) cls
             (color_map resolve_colors cls s) y in
  Forall (λ it, ∃ ev, f it = inr ev) (take i (enumerate (rows X))) →
  f (i, row) = inl e →
  ∃ lines,
    length lines = i ∧
    fit set_iter resolve_colors gca X y s
    = (inl e, resolved gca X cls s,
       Print (color_map resolve_colors cls s) :: (plot_event <$> lines)).
Proof.
  intros Hcls Hrow f Hok He.
  assert (enumerate (rows X) !! i = Some (i, row)) as Hit
    by by apply enumerate_lookup.
  destruct (collect_instances (seq 0 (shape X).2) cls
              (color_map resolve_colors cls s) y
              (take i (enumerate (rows X)))) as (lines & Ht & _ & Hn).
  fold f in Ht, Hn. pose proof (collect_no_error _ _ Hok) as Hnone.
  specialize (Hn Hnone).
  rewrite length_take_le in Hn
    by (rewrite enumerate_length; apply lookup_lt_Some in Hrow; lia).
  exists lines. split; [done|].
  rewrite fit_unfold. unfold fit_closed. rewrite Hcls. fold f.
  rewrite <- (take_drop_middle _ _ _ Hit), collect_app.
  destruct (collect f (take i (enumerate (rows X)))) as [r t].
  cbn [fst snd] in *. subst r t. cbn [collect]. rewrite He.
  by rewrite app_nil_r.
Qed.

(** The instances before [i] do not raise when their labels are drawable. *)
Lemma drawable_prefix_ok (x : list nat) cls (colors : gmap string colour)
    ys (rws : list value) i :
  i ≤ length ys →
  Forall (drawable cls colors) (take i ys) →
  Forall (λ it, ∃ ev, instance_event x cls colors (Some ys) it = inr ev)
         (take i (enumerate rws)).
Proof.
  intros Hi Hall. apply Forall_lookup.
  intros j it [[Hj _]%enumerate_lookup Hlt]%lookup_take_Some.
  destruct (lookup_lt_is_Some_2 ys j) as [l Hl]; [lia|].
  assert (drawable cls colors l) as (k & name & c & -> & Hname & Hc).
  { apply (proj1 (Forall_lookup _ _) Hall j). by rewrite lookup_take_lt. }
  exists (Plot x it.2 c name). apply instance_event_inr.
  exists ys, k, name, c. by rewrite Hj, list_getitem_nonneg, Hl.
Qed.

(** A label in range is drawable when there are as many colours as
    classes. *)
Lemma in_range_drawable cls (cvs : list colour) l :
  length cls ≤ length cvs →
  index_in_range (length cls) l = true →
  drawable cls (py_dict (zip cls cvs)) l.
Proof.
  intros Hlen (k & -> & Hk)%index_in_range_spec.
  destruct (list_getitem_in_range cls k Hk) as (name & Hname & Hin).
  destruct (py_dict_zip_is_Some cls cvs name Hlen Hin) as [c Hc].
  by exists k, name, c.
Qed.

(** X1. [fit] changes nothing but [ax], [features_] and [classes_]: the
    colour arguments, the [vlines] flag and the guide style of the
    visualizer are the same after [fit] as before, on every input and
    whether or not [fit] raises; and axes given to the constructor are never
    replaced. *)
Theorem fit_keeps_visual_parameters gca X y s :
  let s' := final (fit set_iter resolve_colors gca X y s) in
  color s' = color s ∧ colormap s' = colormap s ∧
  show_vlines s' = show_vlines s ∧ vlines_kwds s' = vlines_kwds s ∧
  match ax s with Some a => ax s' = Some a | None => True end.
Proof.
  cbn zeta. destruct (class_list set_iter y s) as [cls|] eqn:Hcl.
  - rewrite (fit_final gca X y s cls Hcl). cbn. by destruct (ax s).
  - rewrite (fit_class_step_raises gca X y s Hcl). cbn. by destruct (ax s).
Qed.

(** X2. A second [fit] on the same input replays the first: whatever axes
    are current then, it has the same outcome, makes the same calls again
    (nothing is cleared, so every line is drawn a second time) and leaves
    the visualizer as the first [fit] left it. *)
Theorem fit_again_replays gca gca' X y s :
  let r := fit set_iter resolve_colors gca X y s in
  fit set_iter resolve_colors gca' X y (final r)
  = (outcome r, final r, trace r).
Proof.
  cbn zeta. destruct (class_list set_iter y s) as [cls|] eqn:Hcl.
  - pose proof (fit_final gca X y s cls Hcl) as Hfin.
    set (s1 := resolved gca X cls s) in *.
    assert (fit_closed set_iter resolve_colors gca' X y s1
            = fit_closed set_iter resolve_colors gca X y s) as Hsame.
    { unfold fit_closed. rewrite Hcl.
      assert (class_list set_iter y s1 = Some cls) as -> by done.
      assert (resolved gca' X cls s1 = s1) as ->.
      { unfold s1, resolved, feature_list. cbn. by destruct (ax s). }
      assert (feature_list X s1 = feature_list X s) as -> by done.
      done. }
    rewrite Hfin at 1. rewrite (fit_unfold _ _ gca'), Hsame, <- fit_unfold.
    by destruct (fit set_iter resolve_colors gca X y s) as [[o s'] t].
  - rewrite !(fit_class_step_raises gca X y s Hcl).
    cbn [final outcome trace fst snd]. by apply fit_class_step_raises.
Qed.

(** The loop stops with an exception exactly at the element whose
    iteration raised it, after one call for each element before it. *)
Lemma collect_error {A} (f : A → exc + event value colour) (l : list A) e :
  (collect f l).1 = Some e →
  ∃ a, l !! length (collect f l).2 = Some a ∧ f a = inl e.
Proof.
  induction l as [|a l IH]; [done|]. cbn [collect].
  destruct (f a) as [e'|ev] eqn:Ha.
  - intros [= ->]. by exists a.
  - destruct (collect f l) as [r t]. cbn [fst snd] in *.
    intros (a' & Ha' & He)%IH. by exists a'.
Qed.

(** X3. On a matrix with at least one column, a [fit] that raises has
    decorated nothing: no guide line, no tick positions, no tick labels and
    no limits were set.  The n lines on the axes are those of the first n
    items of [X], in order, and either [fit] stopped at the class step (no
    labels, no classes, nothing drawn) or item n exists and is the one whose
    iteration raised the exception. *)
Theorem fit_error_leaves_no_decoration gca X y s e :
  (shape X).2 ≠ 0 →
  let r := fit set_iter resolve_colors gca X y s in
  outcome r = inl e →
  axvline_calls (trace r) = [] ∧ set_xticks_calls (trace r) = [] ∧
  set_xticklabels_calls (trace r) = [] ∧ set_xlim_calls (trace r) = [] ∧
  let n := length (plot_calls (trace r)) in
  (∀ j line, plot_calls (trace r) !! j = Some line →
     ∃ row c name,
       rows X !! j = Some row ∧ line = (seq 0 (shape X).2, row, c, name)) ∧
  ((classes_ s = None ∧ y = None ∧ e = TypeError ∧ n = 0) ∨
   (∃ cls row,
      classes_ (final r) = Some cls ∧ rows X !! n = Some row ∧
      instance_event (seq 0 (shape X).2) cls
        (color_map resolve_colors cls s) y (n, row) = inl e)).
Proof.
  intros HF r Hout. subst r.
  destruct (class_list set_iter y s) as [cls|] eqn:Hcl.
  2:{ rewrite (fit_class_step_raises gca X y s Hcl) in Hout |- *. cbn.
      injection Hout as <-. do 4 (split; [done|]). split; [done|]. left.
      unfold class_list in Hcl. by destruct (classes_ s), y. }
  set (x := seq 0 (shape X).2) in *.
  set (colors := color_map resolve_colors cls s) in *.
  set (f := instance_event (value:=value) x cls colors y).
  destruct (collect_instances x cls colors y (enumerate (rows X)))
    as (lines & Ht & Hl & _).
  fold f in Ht, Hl.
  pose proof (collect_error f (enumerate (rows X))) as Herr.
  rewrite (fit_final gca X y s cls Hcl).
  rewrite fit_unfold in Hout |- *. unfold fit_closed in Hout |- *.
  rewrite Hcl in Hout |- *. fold x colors f in Hout |- *.
  destruct (collect f (enumerate (rows X))) as [[e'|] t];
    cbn [fst snd] in *; subst t.
  2:{ cbn [outcome fst snd] in Hout. by destruct (shape X).2. }
  cbn [outcome fst snd] in Hout. injection Hout as ->.
  read_calls. do 4 (split; [done|]). split.
  - intros j line Hline.
    destruct (Forall2_lookup_r _ _ _ _ _ Hl Hline) as ([j' row] & Hit & Hev).
    apply lookup_take_Some in Hit as [[Hj Hrow]%enumerate_lookup _].
    cbn [fst snd] in *. subst j'.
    apply instance_event_inr in Hev
      as (ys & k & name & c & _ & _ & _ & _ & Hplot).
    destruct line as [[[x' row'] c'] name']. cbn in Hplot.
    injection Hplot as -> -> -> ->. by exists row, c, name.
  - right. destruct (Herr e eq_refl) as ([n row] & Hit & He).
    rewrite length_fmap in Hit.
    apply enumerate_lookup in Hit as [Hn Hrow]. cbn [fst snd] in *. subst n.
    by exists cls, row.
Qed.

Lemma list_getitem_inr_range {A} (l : list A) k a :
  list_getitem l k = inr a →
  (- Z.of_nat (length l) ≤ k < Z.of_nat (length l))%Z.
Proof.
  intros Hk.
  destruct (decide (- Z.of_nat (length l) ≤ k < Z.of_nat (length l))%Z)
    as [?|Hout]; [done|].
  by rewrite (list_getitem_out_of_range l k Hout) in Hk.
Qed.

(** X4. [fit] returns only if it has drawn every instance: there is a label
    vector, the label of each row is an integer within the Python bounds of
    the class list, and the i-th [plot] call is the i-th row under the class
    name at that index.  (A matrix without rows needs no labels.) *)
Theorem fit_returns_only_if_labels_index_classes gca X y s :
  let r := fit set_iter resolve_colors gca X y s in
  outcome r = inr tt →
  ∃ cls,
    classes_ (final r) = Some cls ∧
    length (plot_calls (trace r)) = length (rows X) ∧
    ∀ i row, rows X !! i = Some row →
      ∃ ys k name c,
        y = Some ys ∧ ys !! i = Some (LInt k) ∧
        (- Z.of_nat (length cls) ≤ k < Z.of_nat (length cls))%Z ∧
        list_getitem cls k = inr name ∧
        plot_calls (trace r) !! i = Some (seq 0 (shape X).2, row, c, name).
Proof.
  intros r Hout. subst r.
  destruct (class_list set_iter y s) as [cls|] eqn:Hcl.
  2:{ by rewrite (fit_class_step_raises gca X y s Hcl) in Hout. }
  destruct (fit_run set_iter resolve_colors gca X y s cls Hcl)
    as (lines & Hl & [(e' & _ & Hfit)|(_ & Hlen & Hfit)]);
    rewrite Hfit in Hout |- *; [done|].
  exists cls. split; [done|]. read_calls.
  assert (plot_calls
            match (shape X).2 with
            | 0 => []
            | S n => [SetXlim (value:=value) (colour:=colour) 0 n]
            end = []) as -> by by destruct (shape X).2.
  rewrite app_nil_r. split; [done|].
  intros i row Hrow.
  rewrite take_ge in Hl by (rewrite enumerate_length; lia).
  assert (enumerate (rows X) !! i = Some (i, row)) as Hit
    by by apply enumerate_lookup.
  destruct (Forall2_lookup_l _ _ _ _ _ Hl Hit) as (line & Hline & Hev).
  apply instance_event_inr in Hev
    as (ys & k & name & c & -> & Hk & Hname & Hc & Hplot).
  cbn [fst snd] in *. rewrite list_getitem_nonneg in Hk.
  destruct (ys !! i) as [l|] eqn:Hi; [|done]. injection Hk as ->.
  exists ys, k, name, c. repeat split; try done.
  - by eapply list_getitem_inr_range.
  - by eapply list_getitem_inr_range.
  - destruct line as [[[x' row'] c'] name']. cbn in Hplot.
    by injection Hplot as -> -> -> ->.
Qed.

(** X5. A string label cannot index the class list: at the first instance
    whose label is a string, the instances before it being drawable, [fit]
    raises [TypeError] after drawing the lines before it. *)
Theorem fit_string_label_raises_TypeError gca X ys s cls i name :
  class_list set_iter (Some ys) s = Some cls →
  i < length (rows X) →
  Forall (drawable cls (color_map resolve_colors cls s)) (take i ys) →
  ys !! i = Some (LStr name) →
  let r := fit set_iter resolve_colors gca X (Some ys) s in
  outcome r = inl TypeError ∧ length (plot_calls (trace r)) = i.
Proof.
  intros Hcl Hi Hpre Hl r. subst r.
  destruct (lookup_lt_is_Some_2 (rows X) i Hi) as [row Hrow].
  destruct (fit_first_error gca X (Some ys) s cls i row TypeError Hcl Hrow)
    as (lines & Hlen & ->).
  - apply drawable_prefix_ok; [|done]. apply lookup_lt_Some in Hl. lia.
  - unfold instance_event. cbn [fst]. by rewrite list_getitem_nonneg, Hl.
  - split; [done|]. read_calls. by rewrite ?app_nil_r.
Qed.

(** X6. A label vector shorter than the matrix: with every label drawable,
    [fit] draws one line per label and then raises [IndexError] at the
    first row without a label. *)
Theorem fit_short_label_vector_raises_IndexError gca X ys s cls :
  class_list set_iter (Some ys) s = Some cls →
  length ys < length (rows X) →
  Forall (drawable cls (color_map resolve_colors cls s)) ys →
  let r := fit set_iter resolve_colors gca X (Some ys) s in
  outcome r = inl IndexError ∧ length (plot_calls (trace r)) = length ys.
Proof.
  intros Hcl Hlen Hall r. subst r.
  destruct (lookup_lt_is_Some_2 (rows X) (length ys) Hlen) as [row Hrow].
  destruct (fit_first_error gca X (Some ys) s cls (length ys) row IndexError
              Hcl Hrow) as (lines & Hlines & ->).
  - apply drawable_prefix_ok; [done|]. by rewrite take_ge.
  - unfold instance_event. cbn [fst].
    by rewrite list_getitem_nonneg, lookup_ge_None_2.
  - split; [done|]. read_calls. by rewrite ?app_nil_r.
Qed.

(** X7. With a class list but no label vector, [fit] raises [TypeError] at
    the first row ([None[0]]) before drawing anything; only a matrix
    without rows gets past the loop, and then [fit] returns if the matrix
    has a column. *)
Theorem fit_without_labels_with_classes gca X s cls :
  classes_ s = Some cls →
  let r := fit set_iter resolve_colors gca X None s in
  outcome r = match rows X, (shape X).2 with
              | _ :: _, _ => inl TypeError
              | [], 0 => inl IndexError
              | [], S _ => inr tt
              end ∧
  plot_calls (trace r) = [].
Proof.
  intros Hc r. subst r.
  assert (class_list set_iter None s = Some cls) as Hcl
    by (unfold class_list; by rewrite Hc).
  destruct (rows X) as [|row rws] eqn:Hrows.
  - destruct (fit_run set_iter resolve_colors gca X None s cls Hcl)
      as (lines & _ & [(e & He & _)|(_ & Hlen & ->)]).
    { by rewrite Hrows in He. }
    rewrite Hrows in Hlen. destruct lines; [|done].
    read_calls. by destruct (shape X).2.
  - destruct (fit_first_error gca X None s cls 0 row TypeError Hcl)
      as (lines & Hlen & ->); [by rewrite Hrows|by rewrite Hrows|done|].
    by destruct lines.
Qed.

Lemma fst_zip_take {A B} (l : list A) (k : list B) :
  (zip l k).*1 = take (length k) l.
Proof.
  revert k. induction l as [|a l IH]; intros [|b k]; cbn; [done..|].
  by rewrite IH.
Qed.

(** A value found in the dictionary comes from the last pair with its key. *)
Lemma py_dict_lookup_Some {V} (l : list (string * V)) k v :
  py_dict l !! k = Some v →
  ∃ j, l !! j = Some (k, v) ∧ ∀ j' v', j < j' → l !! j' ≠ Some (k, v').
Proof.
  induction l as [|[k' v'] l IH] using rev_ind; [done|].
  rewrite py_dict_snoc. cbn [fst snd].
  destruct (decide (k' = k)) as [->|Hne].
  - rewrite lookup_insert_eq. intros [= ->]. exists (length l). split.
    + by rewrite lookup_app_r, Nat.sub_diag.
    + intros j' w Hj'. rewrite lookup_ge_None_2; [done|].
      rewrite length_app. cbn. lia.
  - rewrite lookup_insert_ne by done. intros (j & Hj & Hlast)%IH.
    exists j. split; [by apply lookup_app_l_Some|].
    intros j' w Hj' Hl. apply lookup_app_Some in Hl as [Hl|[_ Hl]].
    + by eapply Hlast.
    + destruct (j' - length l) as [|n]; simplify_eq/=.
Qed.

(** X8. Too few colours: [zip] silently drops the classes beyond the last
    colour, and the first instance of such a class, the instances before it
    being drawable, makes [fit] raise [KeyError] with the class name, after
    the lines before it are drawn. *)
Theorem fit_missing_colour_raises_KeyError gca X ys s cls i k name :
  class_list set_iter (Some ys) s = Some cls →
  i < length (rows X) →
  Forall (drawable cls (color_map resolve_colors cls s)) (take i ys) →
  ys !! i = Some (LInt k) →
  list_getitem cls k = inr name →
  name ∉ take (length (resolve_colors (length cls) (colormap s) (color s)))
         cls →
  let r := fit set_iter resolve_colors gca X (Some ys) s in
  outcome r = inl (KeyError name) ∧ length (plot_calls (trace r)) = i.
Proof.
  intros Hcl Hi Hpre Hl Hname Hnot r. subst r.
  destruct (lookup_lt_is_Some_2 (rows X) i Hi) as [row Hrow].
  destruct (fit_first_error gca X (Some ys) s cls i row (KeyError name)
              Hcl Hrow) as (lines & Hlen & ->).
  - apply drawable_prefix_ok; [|done]. apply lookup_lt_Some in Hl. lia.
  - unfold instance_event, dict_getitem, color_map. cbn [fst].
    rewrite list_getitem_nonneg, Hl, Hname.
    by rewrite py_dict_lookup_None by by rewrite fst_zip_take.
  - split; [done|]. read_calls. by rewrite ?app_nil_r.
Qed.

(** X9. The colour of every line that [fit] draws, in any run, is the
    colour at the position of the last occurrence of the line's class name
    among the classes that have a colour; with repeated class names the
    earlier pairings are overridden. *)
Theorem fit_line_colour_is_last_pairing gca X y s x row c name :
  let r := fit set_iter resolve_colors gca X y s in
  (x, row, c, name) ∈ plot_calls (trace r) →
  ∃ cls j,
    classes_ (final r) = Some cls ∧
    let cvs := resolve_colors (length cls) (colormap s) (color s) in
    cls !! j = Some name ∧ cvs !! j = Some c ∧
    ∀ j', j < j' → j' < length cvs → cls !! j' ≠ Some name.
Proof.
  intros r Hin. subst r.
  destruct (class_list set_iter y s) as [cls|] eqn:Hcl.
  2:{ rewrite (fit_class_step_raises gca X y s Hcl) in Hin.
      by apply elem_of_nil in Hin. }
  assert (∃ lines,
            Forall2 (λ it line,
                       instance_event (seq 0 (shape X).2) cls
                         (color_map resolve_colors cls s) y it
                       = inr (plot_event line))
                    (take (length lines) (enumerate (rows X))) lines ∧
            plot_calls (trace (fit set_iter resolve_colors gca X y s)) = lines)
    as (lines & Hl & Hcalls).
  { destruct (fit_run set_iter resolve_colors gca X y s cls Hcl)
      as (lines & Hl & [(e & _ & ->)|(_ & _ & ->)]);
      exists lines; (split; [done|]); read_calls; [done|].
    by destruct (shape X).2; cbn; rewrite app_nil_r. }
  rewrite Hcalls in Hin. apply list_elem_of_lookup in Hin as [i Hi].
  destruct (Forall2_lookup_r _ _ _ _ _ Hl Hi) as (it & _ & Hev).
  apply instance_event_inr in Hev
    as (ys & k & name' & c' & _ & _ & _ & Hc & [= _ _ <- <-]).
  apply py_dict_lookup_Some in Hc as (j & Hj & Hlast).
  rewrite lookup_zip_with in Hj.
  destruct (cls !! j) as [n|] eqn:Hn; [|done]. cbn in Hj.
  destruct (color_values resolve_colors cls s !! j) as [v|] eqn:Hv; [|done].
  injection Hj as -> ->.
  exists cls, j. rewrite (fit_final gca X y s cls Hcl).
  split; [done|]. cbn zeta. split; [done|]. split; [done|].
  intros j' Hlt Hlen Hj'.
  destruct (lookup_lt_is_Some_2 (color_values resolve_colors cls s) j' Hlen)
    as [v' Hv'].
  apply (Hlast j' v' Hlt). rewrite lookup_zip_with, Hj'. cbn. by rewrite Hv'.
Qed.

(** X10. A matrix without columns: on otherwise valid input [fit] draws all
    N lines, sets an empty list of tick positions and the tick labels it
    holds, and then raises [IndexError] at [x[0]]; no guide line is drawn
    and the limits are not set. *)
Theorem fit_zero_columns gca X ys s N :
  resolve_colors_contract resolve_colors →
  shape X = (N, 0) →
  valid_input set_iter X ys s = true →
  let r := fit set_iter resolve_colors gca X (Some ys) s in
  outcome r = inl IndexError ∧
  length (plot_calls (trace r)) = N ∧
  axvline_calls (trace r) = [] ∧
  set_xticks_calls (trace r) = [[]] ∧
  (∃ fs, features_ (final r) = Some fs ∧
         set_xticklabels_calls (trace r) = [fs]) ∧
  set_xlim_calls (trace r) = [].
Proof.
  intros Hrc Hshape Hvalid r. subst r.
  pose proof Hvalid as (Hrows & Hys & cls & Hcls & Hall)%valid_input_spec.
  pose proof (instances_ok _ _ X ys s cls Hrc Hvalid Hcls) as Hok.
  destruct (fit_run set_iter resolve_colors gca X (Some ys) s cls Hcls)
    as (lines & _ & [(e & He & _)|(_ & Hlen & ->)]); [congruence|].
  rewrite Hshape in *. cbn [fst snd] in *. read_calls.
  rewrite !app_nil_r. split; [done|]. split; [lia|].
  split; [by destruct (show_vlines s)|]. split; [done|].
  split; [by eexists|done].
Qed.

(** X11. [poof] after [fit]: when [fit] got past the class step, [poof] does
    not raise; it calls [legend(loc='best')] and [grid()] on the axes [fit]
    kept (those given to the constructor) or adopted (the current axes) and
    then [plt.show()].  It raises [AttributeError] only when the visualizer
    had no axes and [fit] stopped at the class step. *)
Theorem poof_after_fit gca X y s :
  let r := fit set_iter resolve_colors gca X y s in
  poof (final r)
  = match classes_ s, y, ax s with
    | None, None, None => (inl (AttributeError "legend"), [])
    | _, _, _ =>
        let a := default gca (ax s) in
        (inr tt, [Legend a "best"; Grid a; PltShow])
    end.
Proof.
  cbn zeta. destruct (class_list set_iter y s) as [cls|] eqn:Hcl.
  - rewrite (fit_final gca X y s cls Hcl). unfold class_list in Hcl.
    unfold poof. cbn [resolved ax].
    by destruct (classes_ s), y, (ax s).
  - rewrite (fit_class_step_raises gca X y s Hcl). unfold class_list in Hcl.
    unfold poof. cbn [final fst snd].
    by destruct (classes_ s), y, (ax s).
Qed.

(** X12. Classes derived from the labels: when the set iteration yields
    each distinct label once, the class list [fit] stores has as many
    entries as there are distinct labels, and its entries are exactly the
    [str] of the labels. *)
Theorem fit_derives_classes_from_labels gca X ys s :
  set_iter_spec set_iter →
  classes_ s = None →
  let r := fit set_iter resolve_colors gca X (Some ys) s in
  ∃ cls,
    classes_ (final r) = Some cls ∧
    length cls = length (remove_dups ys) ∧
    (∀ l, l ∈ ys → str l ∈ cls) ∧
    (∀ name, name ∈ cls → ∃ l, l ∈ ys ∧ name = str l).
Proof.
  intros Hspec Hc r. subst r.
  assert (class_list set_iter (Some ys) s = Some (str <$> set_iter ys))
    as Hcl by (unfold class_list; by rewrite Hc).
  rewrite (fit_final gca X (Some ys) s _ Hcl).
  destruct (Hspec ys) as [Hnd Hel].
  exists (str <$> set_iter ys). split; [done|]. split; [|split].
  - rewrite length_fmap. apply Permutation_length, NoDup_Permutation;
      [done|apply NoDup_remove_dups|].
    intros l. by rewrite Hel, elem_of_remove_dups.
  - intros l Hl. apply list_elem_of_fmap. exists l. by rewrite Hel.
  - intros name (l & -> & Hl)%list_elem_of_fmap. exists l. by rewrite <- Hel.
Qed.

(** The i-th call of a valid run. *)
Lemma valid_plot_call gca X ys s i row :
  resolve_colors_contract resolve_colors →
  valid_input set_iter X ys s = true →
  rows X !! i = Some row →
  ∃ cls k name c,
    class_list set_iter (Some ys) s = Some cls ∧
    ys !! i = Some (LInt k) ∧ list_getitem cls k = inr name ∧
    plot_calls (trace (fit set_iter resolve_colors gca X (Some ys) s)) !! i
    = Some (seq 0 (shape X).2, row, c, name).
Proof.
  intros Hrc Hvalid Hrow.
  pose proof Hvalid as (Hrows & Hys & cls & Hcls & Hall)%valid_input_spec.
  pose proof (instances_ok _ _ X ys s cls Hrc Hvalid Hcls) as Hok.
  destruct (fit_run set_iter resolve_colors gca X (Some ys) s cls Hcls)
    as (lines & Hlines & [(e & He & _)|(_ & Hlen & ->)]); [congruence|].
  rewrite take_ge in Hlines by (rewrite enumerate_length; lia).
  assert (enumerate (rows X) !! i = Some (i, row)) as Hit
    by by apply enumerate_lookup.
  destruct (Forall2_lookup_l _ _ _ _ _ Hlines Hit) as (line & Hline & Hev).
  apply instance_event_inr in Hev
    as (ys' & k & name & c & [= <-] & Hk & Hname & Hc & Hplot).
  cbn [fst snd] in *. rewrite list_getitem_nonneg in Hk.
  destruct (ys !! i) as [l|] eqn:Hl; [|done]. injection Hk as ->.
  exists cls, k, name, c. repeat split; [done..|].
  read_calls. rewrite lookup_app_l by by eapply lookup_lt_Some.
  destruct line as [[[x' row'] c'] name']. cbn in Hplot.
  by injection Hplot as -> -> -> ->.
Qed.

(** X13. With classes derived from the labels, the name under which an
    instance is drawn is not the [str] of its own label but the [str] of the
    label that the set iteration yields at the position given by its label:
    the two agree only if the set iteration puts label k at position k. *)
Theorem fit_names_line_by_set_position gca X ys s i k row :
  resolve_colors_contract resolve_colors →
  valid_input set_iter X ys s = true →
  classes_ s = None →
  rows X !! i = Some row →
  ys !! i = Some (LInt k) →
  (0 ≤ k)%Z →
  let r := fit set_iter resolve_colors gca X (Some ys) s in
  ∃ l c,
    set_iter ys !! Z.to_nat k = Some l ∧
    plot_calls (trace r) !! i = Some (seq 0 (shape X).2, row, c, str l).
Proof.
  intros Hrc Hvalid Hc Hrow Hl Hk r. subst r.
  destruct (valid_plot_call gca X ys s i row Hrc Hvalid Hrow)
    as (cls & k' & name & c & Hcl & Hl' & Hname & Hcall).
  rewrite Hl in Hl'. injection Hl' as <-.
  unfold class_list in Hcl. rewrite Hc in Hcl. injection Hcl as <-.
  rewrite <- (Z2Nat.id k), list_getitem_nonneg, list_lookup_fmap in Hname
    by done.
  destruct (set_iter ys !! Z.to_nat k) as [l|] eqn:Hpos; [|done].
  injection Hname as <-. by exists l, c.
Qed.

(** X14. Surplus colours are dropped without notice: [fit] looks at the
    colour sequence only through its first len(classes_) entries, so two
    colour collaborators that agree on those give the same run. *)
Theorem fit_ignores_surplus_colours
    (rc1 rc2 : nat → option string → option (list colour) → list colour)
    gca X y s :
  (∀ n cm c, take n (rc1 n cm c) = take n (rc2 n cm c)) →
  fit set_iter rc1 gca X y s = fit set_iter rc2 gca X y s.
Proof.
  intros Hagree. rewrite !fit_unfold. unfold fit_closed.
  destruct (class_list set_iter y s) as [cls|]; [|done].
  assert (color_map rc1 cls s = color_map rc2 cls s) as ->; [|done].
  unfold color_map, color_values.
  rewrite <- (zip_with_take_r pair cls (rc1 _ _ _)),
          <- (zip_with_take_r pair cls (rc2 _ _ _)).
  by rewrite Hagree.
Qed.

End Behaviour.

(** * The model at work *)

Lemma distinct_labels_spec : set_iter_spec distinct_labels.
Proof.
  intros ys. split; [apply NoDup_remove_dups|].
  intros l. apply elem_of_remove_dups.
Qed.

Lemma palette_contract : resolve_colors_contract palette.
Proof. intros n cm c. unfold palette. by rewrite length_fmap, length_seq. Qed.

(** A fresh visualizer on the 2 x 3 array with labels 0 and 1: two lines,
    three guides, ticks 0..2 named "0".."2", extent [0, 2]. *)
Example fit_array23 :
  let r := fit distinct_labels palette 7 array23 (Some [LInt 0; LInt 1]) fresh in
  outcome r = inr tt ∧
  ax (final r) = Some 7 ∧
  classes_ (final r) = Some ["0"; "1"]%string ∧
  features_ (final r) = Some ["0"; "1"; "2"]%string ∧
  plot_calls (trace r)
  = [([0; 1; 2], [1; 2; 3]%Z, "C0", "0");
     ([0; 1; 2], [4; 5; 6]%Z, "C1", "1")]%string ∧
  axvline_calls (trace r) = (λ i, (i, default_vlines_kwds)) <$> [0; 1; 2] ∧
  set_xticks_calls (trace r) = [[0; 1; 2]] ∧
  set_xlim_calls (trace r) = [(0, 2)].
Proof. by vm_compute. Qed.

(** A negative label counts from the end of the class list. *)
Example fit_negative_label :
  plot_calls (trace (fit distinct_labels palette 7 array23
                       (Some [LInt (-1); LInt 0]) fresh))
  = [([0; 1; 2], [1; 2; 3]%Z, "C1", "0");
     ([0; 1; 2], [4; 5; 6]%Z, "C0", "-1")]%string.
Proof. by vm_compute. Qed.

(** A matrix without columns: the lines are drawn, then [x[0]] raises. *)
Example fit_no_columns :
  let X := {| shape := (1, 0); rows := [[]]; columns := None |} : Matrix (list Z) in
  let r := fit distinct_labels palette 7 X (Some [LInt 0]) fresh in
  outcome r = inl IndexError ∧ length (plot_calls (trace r)) = 1 ∧
  set_xlim_calls (trace r) = [].
Proof. by vm_compute. Qed.

(** ** Instances of the theorems *)

Lemma fit_draws_N_lines_and_F_ticks_witness :
  let r := fit distinct_labels palette 7 array23 (Some [LInt 0; LInt 1]) fresh in
  length (plot_calls (trace r)) = 2 ∧
  (∃ x, set_xticks_calls (trace r) = [x] ∧ length x = 3) ∧
  (0 < 3 → outcome r = inr tt).
Proof.
  apply (fit_draws_N_lines_and_F_ticks distinct_labels palette 7 array23
           [LInt 0; LInt 1] fresh 2 3);
    [apply palette_contract | reflexivity | by vm_compute].
Defined.

Lemma fit_plots_instance_by_label_index_witness :
  let ys := [LInt 0; LInt 1] in
  let r := fit distinct_labels palette 7 array23 (Some ys) fresh in
  ∃ cls,
    classes_ (final r) = Some cls ∧
    let cvs := palette (length cls) (colormap fresh) (color fresh) in
    let colors := py_dict (zip cls cvs) in
    (∀ i row, rows array23 !! i = Some row →
       ∃ k name c,
         ys !! i = Some (LInt k) ∧
         list_getitem cls k = inr name ∧
         colors !! name = Some c ∧
         plot_calls (trace r) !! i
         = Some (seq 0 (shape array23).2, row, c, name)) ∧
    (NoDup cls → ∀ j name, cls !! j = Some name → colors !! name = cvs !! j).
Proof.
  apply (fit_plots_instance_by_label_index distinct_labels palette 7 array23
           [LInt 0; LInt 1] fresh);
    [apply palette_contract | by vm_compute].
Defined.

Lemma fit_resolves_feature_names_witness :
  features_ (final (fit distinct_labels palette 7 frame23
                      (Some [LInt 0; LInt 1]) fresh))
  = Some ["a"; "b"; "c"]%string ∧
  features_ (final (fit distinct_labels palette 7 array23
                      (Some [LInt 0; LInt 1]) fresh))
  = Some ["0"; "1"; "2"]%string.
Proof.
  split.
  - apply (fit_resolves_feature_names distinct_labels palette 7 frame23
             (Some [LInt 0; LInt 1]) fresh 3);
      [reflexivity | reflexivity | right; by eexists].
  - apply (fit_resolves_feature_names distinct_labels palette 7 array23
             (Some [LInt 0; LInt 1]) fresh 3);
      [reflexivity | reflexivity | right; by eexists].
Defined.

Lemma fit_without_labels_or_classes_raises_witness :
  fit distinct_labels palette 7 array23 None fresh = (inl TypeError, fresh, []).
Proof.
  apply (fit_without_labels_or_classes_raises distinct_labels palette 7 array23
           fresh).
  reflexivity.
Defined.

Lemma fit_does_not_check_feature_count_witness :
  let r := fit distinct_labels palette 7 array23 (Some [LInt 0; LInt 1])
             two_features in
  length (plot_calls (trace r)) = 2 ∧
  set_xticks_calls (trace r) = [seq 0 3] ∧
  set_xticklabels_calls (trace r) = [["a"; "b"]%string] ∧
  features_ (final r) = Some ["a"; "b"]%string ∧
  (0 < 3 → outcome r = inr tt).
Proof.
  apply (fit_does_not_check_feature_count distinct_labels palette 7 array23
           [LInt 0; LInt 1] two_features ["a"; "b"]%string 2 3);
    [apply palette_contract | reflexivity | by vm_compute | reflexivity
    | cbn; lia].
Defined.

Lemma fit_out_of_range_label_raises_witness :
  let r := fit distinct_labels palette 7 array23 (Some [LInt 0; LInt 5])
             one_class in
  outcome r = inl IndexError ∧ length (plot_calls (trace r)) = 1.
Proof.
  apply (fit_out_of_range_label_raises distinct_labels palette 7 array23
           [LInt 0; LInt 5] one_class ["a"%string] 1 5);
    [apply palette_contract | reflexivity | cbn; lia
    | by repeat constructor | reflexivity | cbn; lia].
Defined.

Lemma fit_sets_ticks_and_extent_witness :
  let r := fit distinct_labels palette 7 array23 (Some [LInt 0; LInt 1]) fresh in
  ∃ fs t,
    features_ (final r) = Some fs ∧
    trace r = t ++ [SetXticks (seq 0 3); SetXticklabels fs; SetXlim 0 (3 - 1)] ∧
    set_xticks_calls (trace r) = [seq 0 3] ∧
    set_xticklabels_calls (trace r) = [fs] ∧
    set_xlim_calls (trace r) = [(0, 3 - 1)] ∧
    0 < 3.
Proof.
  apply (fit_sets_ticks_and_extent distinct_labels palette 7 array23
           (Some [LInt 0; LInt 1]) fresh 3);
    [reflexivity | by vm_compute].
Defined.

Lemma fit_draws_guide_lines_witness :
  let r := fit distinct_labels palette 7 array23 (Some [LInt 0; LInt 1])
             (init default_args) in
  axvline_calls (trace r)
  = (λ idx, (idx, {[ "linewidth" := VInt 1; "color" := VStr "black" ]}))
      <$> seq 0 3 ∧
  arg_vlines (default_args (colour:=string)) = true.
Proof.
  apply (fit_draws_guide_lines distinct_labels palette 7 array23
           [LInt 0; LInt 1] 2 3 default_args);
    [apply palette_contract | reflexivity | by vm_compute].
Defined.

(** ** Where the code departs from the specification *)

(** C1 fails on a frame.  [fit] reads the column labels of a frame (lines
    113-115), but its loop iterates over [X], and iterating a frame yields
    the column labels, not the rows.  On a 2 x 3 frame with two valid
    labels, [fit] passes the labels "a" and "b" to [ax.plot] as if they were
    rows and then raises [IndexError] at [y[2]], before any tick is set;
    with three labels it makes three [plot] calls, one per column.  Neither
    run draws the N = 2 instance rows. *)
Theorem fit_on_frame_iterates_column_labels :
  let r2 := fit distinct_labels palette 7 frame23 (Some [LInt 0; LInt 1]) fresh in
  let r3 := fit distinct_labels palette 7 frame23
              (Some [LInt 0; LInt 1; LInt 1]) fresh in
  shape frame23 = (2, 3) ∧
  outcome r2 = inl IndexError ∧
  plot_calls (trace r2)
  = [([0; 1; 2], "a", "C0", "0"); ([0; 1; 2], "b", "C1", "1")]%string ∧
  set_xticks_calls (trace r2) = [] ∧
  outcome r3 = inr tt ∧
  plot_calls (trace r3)
  = [([0; 1; 2], "a", "C0", "0"); ([0; 1; 2], "b", "C1", "1");
     ([0; 1; 2], "c", "C1", "1")]%string.
Proof. by vm_compute. Qed.

(** C4 fails: the run without labels and classes and a run with a string
    label raise the same exception, so that nothing read off the exception
    tells a missing configuration from bad data. *)
Lemma missing_labels_error_is_not_a_configuration_error :
  let r0 := fit distinct_labels palette 7 array23 None fresh in
  let r1 := fit distinct_labels palette 7 array23 (Some [LStr "a"; LInt 0])
              one_class in
  outcome r0 = inl TypeError ∧ outcome r1 = inl TypeError ∧
  ¬ (∃ is_configuration_error : exc → bool,
       (∀ e, outcome r0 = inl e → is_configuration_error e = true) ∧
       (∀ e, outcome r1 = inl e → is_configuration_error e = false)).
Proof.
  cbn zeta.
  assert (outcome (fit distinct_labels palette 7 array23 None fresh)
          = inl TypeError) as H0 by by vm_compute.
  assert (outcome (fit distinct_labels palette 7 array23
                     (Some [LStr "a"; LInt 0]) one_class) = inl TypeError)
    as H1 by by vm_compute.
  split; [done|]. split; [done|].
  intros (f & Hf0 & Hf1).
  specialize (Hf0 _ H0). specialize (Hf1 _ H1). congruence.
Qed.

(** C5 fails: three columns, two feature names, and [fit] returns normally
    with both lines drawn. *)
Lemma feature_count_mismatch_not_rejected :
  let r := fit distinct_labels palette 7 array23 (Some [LInt 0; LInt 1])
             two_features in
  (features_ two_features = Some ["a"; "b"]%string ∧ (shape array23).2 = 3) ∧
  outcome r = inr tt ∧
  length (plot_calls (trace r)) = 2 ∧
  ¬ (∃ e, outcome r = inl e ∧ plot_calls (trace r) = []).
Proof.
  cbn zeta. split; [done|]. split; [by vm_compute|]. split; [by vm_compute|].
  intros (e & He & _). by vm_compute in He.
Qed.

(** C6 fails: the bad label sits at instance 0 in one run and at instance 1
    in the other, and both runs raise the same exception, so that nothing
    read off the exception tells the two instances apart. *)
Lemma out_of_range_error_hides_instance :
  let r0 := fit distinct_labels palette 7 array23 (Some [LInt 5; LInt 0])
              one_class in
  let r1 := fit distinct_labels palette 7 array23 (Some [LInt 0; LInt 5])
              one_class in
  outcome r0 = inl IndexError ∧ outcome r1 = inl IndexError ∧
  ¬ (∃ instance_of : exc → nat,
       (∀ e, outcome r0 = inl e → instance_of e = 0) ∧
       (∀ e, outcome r1 = inl e → instance_of e = 1)).
Proof.
  cbn zeta.
  assert (outcome (fit distinct_labels palette 7 array23
                     (Some [LInt 5; LInt 0]) one_class) = inl IndexError)
    as H0 by by vm_compute.
  assert (outcome (fit distinct_labels palette 7 array23
                     (Some [LInt 0; LInt 5]) one_class) = inl IndexError)
    as H1 by by vm_compute.
  split; [done|]. split; [done|].
  intros (f & Hf0 & Hf1).
  specialize (Hf0 _ H0). specialize (Hf1 _ H1). congruence.
Qed.

(** ** Instances of the further theorems *)

Lemma fit_error_leaves_no_decoration_witness :
  let y := Some [LInt 0; LInt 5] in
  let r := fit distinct_labels palette 7 array23 y one_class in
  axvline_calls (trace r) = [] ∧ set_xticks_calls (trace r) = [] ∧
  set_xticklabels_calls (trace r) = [] ∧ set_xlim_calls (trace r) = [] ∧
  let n := length (plot_calls (trace r)) in
  (∀ j line, plot_calls (trace r) !! j = Some line →
     ∃ row c name,
       rows array23 !! j = Some row ∧
       line = (seq 0 (shape array23).2, row, c, name)) ∧
  ((classes_ one_class = None ∧ y = None ∧ IndexError = TypeError ∧ n = 0) ∨
   (∃ cls row,
      classes_ (final r) = Some cls ∧ rows array23 !! n = Some row ∧
      instance_event (seq 0 (shape array23).2) cls
        (color_map palette cls one_class) y (n, row) = inl IndexError)).
Proof.
  apply (fit_error_leaves_no_decoration distinct_labels palette 7 array23
           (Some [LInt 0; LInt 5]) one_class IndexError);
    [cbn; lia | by vm_compute].
Defined.

Lemma fit_returns_only_if_labels_index_classes_witness :
  let y := Some [LInt 0; LInt 1] in
  let r := fit distinct_labels palette 7 array23 y fresh in
  ∃ cls,
    classes_ (final r) = Some cls ∧
    length (plot_calls (trace r)) = length (rows array23) ∧
    ∀ i row, rows array23 !! i = Some row →
      ∃ ys k name c,
        y = Some ys ∧ ys !! i = Some (LInt k) ∧
        (- Z.of_nat (length cls) ≤ k < Z.of_nat (length cls))%Z ∧
        list_getitem cls k = inr name ∧
        plot_calls (trace r) !! i
        = Some (seq 0 (shape array23).2, row, c, name).
Proof.
  apply (fit_returns_only_if_labels_index_classes distinct_labels palette 7
           array23 (Some [LInt 0; LInt 1]) fresh).
  by vm_compute.
Defined.

Lemma fit_string_label_raises_TypeError_witness :
  let r := fit distinct_labels palette 7 array23 (Some [LInt 0; LStr "a"])
             one_class in
  outcome r = inl TypeError ∧ length (plot_calls (trace r)) = 1.
Proof.
  apply (fit_string_label_raises_TypeError distinct_labels palette 7 array23
           [LInt 0; LStr "a"] one_class ["a"%string] 1 "a");
    [reflexivity | cbn; lia | | reflexivity].
  repeat constructor. by exists 0%Z, "a"%string, "C0"%string.
Defined.

Lemma fit_short_label_vector_raises_IndexError_witness :
  let r := fit distinct_labels palette 7 array23 (Some [LInt 0]) one_class in
  outcome r = inl IndexError ∧ length (plot_calls (trace r)) = 1.
Proof.
  apply (fit_short_label_vector_raises_IndexError distinct_labels palette 7
           array23 [LInt 0] one_class ["a"%string]);
    [reflexivity | cbn; lia | ].
  repeat constructor. by exists 0%Z, "a"%string, "C0"%string.
Defined.

Lemma fit_without_labels_with_classes_witness :
  let r := fit distinct_labels palette 7 array23 None one_class in
  outcome r = inl TypeError ∧ plot_calls (trace r) = [].
Proof.
  apply (fit_without_labels_with_classes distinct_labels palette 7 array23
           one_class ["a"%string]).
  reflexivity.
Defined.

Lemma fit_missing_colour_raises_KeyError_witness :
  let r := fit distinct_labels one_colour 7 array23 (Some [LInt 0; LInt 1])
             fresh in
  outcome r = inl (KeyError "1") ∧ length (plot_calls (trace r)) = 1.
Proof.
  apply (fit_missing_colour_raises_KeyError distinct_labels one_colour 7 array23
           [LInt 0; LInt 1] fresh ["0"; "1"]%string 1 1 "1");
    [reflexivity | cbn; lia | | reflexivity | reflexivity | ].
  - repeat constructor. by exists 0%Z, "0"%string, "C0"%string.
  - cbn. by intros [=]%list_elem_of_singleton.
Defined.

Lemma fit_line_colour_is_last_pairing_witness :
  let r := fit distinct_labels palette 7 array23 (Some [LInt 0; LInt 1]) fresh in
  ∃ cls j,
    classes_ (final r) = Some cls ∧
    let cvs := palette (length cls) (colormap fresh) (color fresh) in
    cls !! j = Some "1"%string ∧ cvs !! j = Some "C1"%string ∧
    ∀ j', j < j' → j' < length cvs → cls !! j' ≠ Some "1"%string.
Proof.
  apply (fit_line_colour_is_last_pairing distinct_labels palette 7 array23
           (Some [LInt 0; LInt 1]) fresh [0; 1; 2] [4; 5; 6]%Z).
  apply list_elem_of_lookup. exists 1. by vm_compute.
Defined.

Lemma fit_zero_columns_witness :
  let r := fit distinct_labels palette 7 array10 (Some [LInt 0]) fresh in
  outcome r = inl IndexError ∧
  length (plot_calls (trace r)) = 1 ∧
  axvline_calls (trace r) = [] ∧
  set_xticks_calls (trace r) = [[]] ∧
  (∃ fs, features_ (final r) = Some fs ∧
         set_xticklabels_calls (trace r) = [fs]) ∧
  set_xlim_calls (trace r) = [].
Proof.
  apply (fit_zero_columns distinct_labels palette 7 array10 [LInt 0] fresh 1);
    [apply palette_contract | reflexivity | by vm_compute].
Defined.

Lemma fit_derives_classes_from_labels_witness :
  let ys := [LInt 1; LInt 0; LInt 1] in
  let r := fit distinct_labels palette 7 array23 (Some ys) fresh in
  ∃ cls,
    classes_ (final r) = Some cls ∧
    length cls = length (remove_dups ys) ∧
    (∀ l, l ∈ ys → str l ∈ cls) ∧
    (∀ name, name ∈ cls → ∃ l, l ∈ ys ∧ name = str l).
Proof.
  apply (fit_derives_classes_from_labels distinct_labels palette 7 array23
           [LInt 1; LInt 0; LInt 1] fresh);
    [apply distinct_labels_spec | reflexivity].
Defined.

(** The first row has label 1 and is drawn under the name "0": the set
    iteration yields 1 first and 0 second. *)
Lemma fit_names_line_by_set_position_witness :
  let ys := [LInt 1; LInt 0] in
  let r := fit distinct_labels palette 7 array23 (Some ys) fresh in
  ∃ l c,
    distinct_labels ys !! Z.to_nat 1 = Some l ∧
    plot_calls (trace r) !! 0
    = Some (seq 0 (shape array23).2, [1; 2; 3]%Z, c, str l).
Proof.
  apply (fit_names_line_by_set_position distinct_labels palette 7 array23
           [LInt 1; LInt 0] fresh 0 1 [1; 2; 3]%Z);
    [apply palette_contract | by vm_compute | reflexivity | reflexivity
    | reflexivity | lia].
Defined.

Lemma long_palette_agrees n cm c :
  take n (palette n cm c) = take n (long_palette n cm c).
Proof.
  unfold long_palette, palette.
  rewrite <- !fmap_take, !take_seq. do 2 f_equal. lia.
Qed.

Lemma fit_ignores_surplus_colours_witness :
  fit distinct_labels palette 7 array23 (Some [LInt 0; LInt 1]) fresh
  = fit distinct_labels long_palette 7 array23 (Some [LInt 0; LInt 1]) fresh.
Proof.
  apply (fit_ignores_surplus_colours distinct_labels palette long_palette 7
           array23 (Some [LInt 0; LInt 1]) fresh).
  apply long_palette_agrees.
Defined.
